(** * pactum: request assembly ([src/helpers/requestProcessor.js])

    A shallow embedding of [requestProcessor.process] and of the setters it
    calls, followed by the properties of the assembled request.

    - JavaScript values are an inductive type [JsValue]; strings are byte
      strings (the UTF-8 text of the JavaScript string), numbers are the
      integer-valued ones.
    - [config.request] and the header objects live in a [World]: header
      objects are mutated by assignment through references, so they are kept
      in a heap indexed by locations and a request holds a location.
    - The setters run in a state-and-exception monad over [World].
    - What the file imports from elsewhere ([url.parse] of Node.js,
      [helper.getPlainQuery], the data processor) is a parameter of the
      development. *)

From Stdlib Require Import ZArith String Ascii List DecimalString.
From stdpp Require Import gmap strings list fin_maps.

Set Warnings "-register-all".
#[local] Arguments String.append !s1 s2.
Local Open Scope string_scope.

(** ** JavaScript values *)

Inductive JsValue : Type :=
| JUndefined
| JNull
| JBool (b : bool)
| JNum (n : Z)
| JStr (s : string)
| JArr (items : list JsValue)
| JObj (props : list (string * JsValue))
| JBuffer (bytes : string).

(** [ToBoolean]: the test made by [if (v)], [!v], [a || b] and [a && b]. *)
Definition truthy (v : JsValue) : bool :=
  match v with
  | JUndefined | JNull => false
  | JBool b => b
  | JNum n => negb (n =? 0)%Z
  | JStr s => negb (String.eqb s "")
  | JArr _ | JObj _ | JBuffer _ => true
  end.

(** The [typeof] operator. *)
Definition typeof (v : JsValue) : string :=
  match v with
  | JUndefined => "undefined"
  | JBool _ => "boolean"
  | JNum _ => "number"
  | JStr _ => "string"
  | JNull | JArr _ | JObj _ | JBuffer _ => "object"
  end.

(** [a || b] evaluates to [a] when [a] is truthy and to [b] otherwise. *)
Definition js_or (a b : JsValue) : JsValue := if truthy a then a else b.

(** Decimal text of an integer-valued number, as [Number.prototype.toString]
    prints it for a magnitude below 10^21; from there on JavaScript prints
    an exponent, which this text does not follow. *)
Definition Number_toString (n : Z) : string := NilZero.string_of_int (Z.to_int n).

Definition Boolean_toString (b : bool) : string := if b then "true" else "false".

(** [Array.prototype.join] on already converted elements. *)
Fixpoint join (sep : string) (parts : list string) : string :=
  match parts with
  | [] => ""
  | [p] => p
  | p :: rest => p ++ sep ++ join sep rest
  end.

(** The abstract operation [ToString], which template literals and
    [String.prototype.replace] apply to their operands.  An array joins its
    elements with a comma, printing [null] and [undefined] as the empty
    string; a plain object prints as [[object Object]]; a buffer decodes its
    bytes. *)
Fixpoint ToString (v : JsValue) : string :=
  match v with
  | JUndefined => "undefined"
  | JNull => "null"
  | JBool b => Boolean_toString b
  | JNum n => Number_toString n
  | JStr s => s
  | JArr items =>
      join "," (List.map (fun item =>
                            match item with
                            | JUndefined | JNull => ""
                            | _ => ToString item
                            end) items)
  | JObj _ => "[object Object]"
  | JBuffer bytes => bytes
  end.

(** ** Strings *)

(** [s.startsWith(p)]. *)
Definition startsWith (s p : string) : bool := String.prefix p s.

(** [s.slice(n)]: [s] without its first [n] characters. *)
Fixpoint String_slice (n : nat) (s : string) : string :=
  match n, s with
  | O, _ => s
  | S _, EmptyString => EmptyString
  | S m, String _ rest => String_slice m rest
  end.

(** The first occurrence of [pat] in [s]: the text before it and the text
    after it. *)
Fixpoint split_first (pat s : string) : option (string * string) :=
  if String.prefix pat s then Some ("", String_slice (String.length pat) s)
  else match s with
       | EmptyString => None
       | String c rest =>
           match split_first pat rest with
           | Some (before, after) => Some (String c before, after)
           | None => None
           end
       end.

(** [GetSubstitution] of ECMAScript for a string pattern, which has no
    capture groups: in the replacement text [$$] stands for a dollar sign,
    [$&] for the matched text, [$`] for the text before the match and [$']
    for the text after it; any other character after a dollar sign leaves
    the dollar sign as it is. *)
Fixpoint GetSubstitution (matched before after replacement : string) : string :=
  match replacement with
  | EmptyString => EmptyString
  | String c tl =>
      if Ascii.eqb c "$" then
        match tl with
        | EmptyString => String c EmptyString
        | String d rest =>
            if Ascii.eqb d "$" then String "$" (GetSubstitution matched before after rest)
            else if Ascii.eqb d "&" then matched ++ GetSubstitution matched before after rest
            else if Ascii.eqb d "`" then before ++ GetSubstitution matched before after rest
            else if Ascii.eqb d "'" then after ++ GetSubstitution matched before after rest
            else String c (GetSubstitution matched before after tl)
        end
      else String c (GetSubstitution matched before after tl)
  end.

(** [s.replace(pat, replacement)] with a string pattern: only the first
    occurrence is replaced. *)
Definition String_replace (s pat replacement : string) : string :=
  match split_first pat s with
  | None => s
  | Some (before, after) => before ++ GetSubstitution pat before after replacement ++ after
  end.

(** ** Objects whose property order matters *)

(** [Object.keys(o)] of an object literal given in its enumeration order. *)
Definition Object_keys (o : list (string * JsValue)) : list string := List.map fst o.

(** [o[k]]: the value of the property, [undefined] when there is none. *)
Fixpoint get_property (o : list (string * JsValue)) (k : string) : JsValue :=
  match o with
  | [] => JUndefined
  | (k', v) :: rest => if String.eqb k' k then v else get_property rest k
  end.

(** ** Header objects *)

(** The property names every plain object inherits from [Object.prototype];
    the [in] operator answers [true] for them on any plain object. *)
Definition Object_prototype_properties : list string :=
  [ "constructor"; "__defineGetter__"; "__defineSetter__"; "hasOwnProperty";
    "__lookupGetter__"; "__lookupSetter__"; "isPrototypeOf";
    "propertyIsEnumerable"; "toString"; "valueOf"; "__proto__";
    "toLocaleString" ].

Definition inherited (prop : string) : bool :=
  existsb (String.eqb prop) Object_prototype_properties.

(** [prop in o] for a plain object [o] given by its own properties. *)
Definition js_in (prop : string) (o : gmap string JsValue) : bool :=
  bool_decide (is_Some (o !! prop)) || inherited prop.

(** [o[prop]] on a header object. *)
Definition js_get (o : gmap string JsValue) (prop : string) : JsValue :=
  default JUndefined (o !! prop).

(** ** Requests, configuration and the world *)

(** A location of the heap: the identity of a header object. *)
Definition loc : Type := positive.

(** The value [url.parse] returns, reduced to the three properties
    [setBaseUrl] reads; each is a string or [null]. *)
Record Url : Type := mkUrl {
  protocol : JsValue;
  host : JsValue;
  pathname : JsValue
}.

(** A [form-data] object as [setMultiPartFormData] observes it: the result of
    [getBuffer()] and the properties of the fresh object [getHeaders()]
    returns.  A form on which one of the two calls throws is not among these
    forms. *)
Record FormData : Type := mkFormData {
  getBuffer : string;
  getHeaders : gmap string JsValue
}.

(** [config.request]. *)
Module Config.
Record request : Type := mk {
  baseUrl : string;
  timeout : JsValue;
  headers : loc;
  followRedirects : JsValue
}.
End Config.

(** The request object handed to [process].  An absent property is [None]
    or [JUndefined]; the [url] is a string, so a request without [url], on
    which [request.url.startsWith] throws, is not among these requests. *)
Module Request.
Record t : Type := mk {
  url : string;
  pathParams : option (list (string * JsValue));
  queryParams : JsValue;
  headers : option loc;
  data : JsValue;
  body : JsValue;
  _multiPartFormData : option FormData;
  followRedirects : JsValue;
  timeout : JsValue;
  path : JsValue;
  baseUrl : JsValue
}.

Definition with_url (v : string) (r : t) : t :=
  mk v (pathParams r) (queryParams r) (headers r) (data r) (body r)
     (_multiPartFormData r) (followRedirects r) (timeout r) (path r) (baseUrl r).
Definition with_headers (v : option loc) (r : t) : t :=
  mk (url r) (pathParams r) (queryParams r) v (data r) (body r)
     (_multiPartFormData r) (followRedirects r) (timeout r) (path r) (baseUrl r).
Definition with_data (v : JsValue) (r : t) : t :=
  mk (url r) (pathParams r) (queryParams r) (headers r) v (body r)
     (_multiPartFormData r) (followRedirects r) (timeout r) (path r) (baseUrl r).
Definition with_body (v : JsValue) (r : t) : t :=
  mk (url r) (pathParams r) (queryParams r) (headers r) (data r) v
     (_multiPartFormData r) (followRedirects r) (timeout r) (path r) (baseUrl r).
Definition with__multiPartFormData (v : option FormData) (r : t) : t :=
  mk (url r) (pathParams r) (queryParams r) (headers r) (data r) (body r)
     v (followRedirects r) (timeout r) (path r) (baseUrl r).
Definition with_followRedirects (v : JsValue) (r : t) : t :=
  mk (url r) (pathParams r) (queryParams r) (headers r) (data r) (body r)
     (_multiPartFormData r) v (timeout r) (path r) (baseUrl r).
Definition with_timeout (v : JsValue) (r : t) : t :=
  mk (url r) (pathParams r) (queryParams r) (headers r) (data r) (body r)
     (_multiPartFormData r) (followRedirects r) v (path r) (baseUrl r).
Definition with_path (v : JsValue) (r : t) : t :=
  mk (url r) (pathParams r) (queryParams r) (headers r) (data r) (body r)
     (_multiPartFormData r) (followRedirects r) (timeout r) v (baseUrl r).
Definition with_baseUrl (v : JsValue) (r : t) : t :=
  mk (url r) (pathParams r) (queryParams r) (headers r) (data r) (body r)
     (_multiPartFormData r) (followRedirects r) (timeout r) (path r) v.
End Request.

(** The mutable state [process] runs in: the header objects and
    [config.request]. *)
Record World : Type := mkWorld {
  heap : gmap loc (gmap string JsValue);
  config_request : Config.request
}.

(** The properties of the object at [l]. *)
Definition object_at (w : World) (l : loc) : gmap string JsValue :=
  default ∅ (heap w !! l).

(** [o[prop] = v] for the object [o] at [l]. *)
Definition assign (l : loc) (prop : string) (v : JsValue) (w : World) : World :=
  mkWorld (<[l := <[prop := v]> (object_at w l)]> (heap w)) (config_request w).

(** ** Computations that change the world and may throw *)

Inductive JsError : Type :=
| TypeError (message : string)
| URIError (message : string).

Inductive completion (A : Type) : Type :=
| Normal (a : A)
| Throw (e : JsError).
Arguments Normal {A} a.
Arguments Throw {A} e.

Definition M (A : Type) : Type := World -> completion (A * World).

Definition ret {A} (a : A) : M A := fun w => Normal (a, w).

Definition bind {A B} (m : M A) (k : A -> M B) : M B :=
  fun w => match m w with
           | Normal (a, w') => k a w'
           | Throw e => Throw e
           end.

Definition read {A} (f : World -> A) : M A := fun w => Normal (f w, w).

Definition modify (f : World -> World) : M unit := fun w => Normal (tt, f w).

Definition lift {A} (c : completion A) : M A :=
  fun w => match c with
           | Normal a => Normal (a, w)
           | Throw e => Throw e
           end.

(** A new object with the given properties. *)
Definition alloc (o : gmap string JsValue) : M loc :=
  fun w => let l := fresh (dom (heap w)) in
           Normal (l, mkWorld (<[l := o]> (heap w)) (config_request w)).

Declare Scope js_scope.
Delimit Scope js_scope with js.
Notation "x <- m ;; k" := (bind m (fun x => k))
  (at level 100, m at next level, right associativity) : js_scope.
Notation "m ;;; k" := (bind m (fun _ => k))
  (at level 100, right associativity) : js_scope.

(** ** Vocabulary of the statements *)

(** The header properties of a request: those of its header object, none
    when it has no header object. *)
Definition headers_of (w : World) (request : Request.t) : gmap string JsValue :=
  match Request.headers request with
  | Some l => object_at w l
  | None => ∅
  end.

(** Whether the character occurs in the string. *)
Fixpoint mentions (c : ascii) (s : string) : bool :=
  match s with
  | EmptyString => false
  | String d rest => Ascii.eqb c d || mentions c rest
  end.

(** Whether the pattern occurs in the string. *)
Definition occurs (pat s : string) : bool :=
  match split_first pat s with Some _ => true | None => false end.

(** An absolute URL in the sense of RFC 3986: it starts with a scheme, a
    letter followed by letters, digits, [+], [-] or [.], and a colon.  This
    is the spec's word; [setBaseUrl] tests something else. *)
Definition is_letter (c : ascii) : bool :=
  let n := nat_of_ascii c in
  ((65 <=? n) && (n <=? 90) || (97 <=? n) && (n <=? 122))%nat.

Definition is_scheme_char (c : ascii) : bool :=
  let n := nat_of_ascii c in
  is_letter c || ((48 <=? n) && (n <=? 57))%nat
  || Ascii.eqb c "+" || Ascii.eqb c "-" || Ascii.eqb c ".".

Fixpoint scheme_then_colon (s : string) : bool :=
  match s with
  | EmptyString => false
  | String c rest =>
      if Ascii.eqb c ":" then true else is_scheme_char c && scheme_then_colon rest
  end.

Definition is_absolute_url (s : string) : bool :=
  match s with
  | EmptyString => false
  | String c rest => is_letter c && scheme_then_colon rest
  end.

(** ** Instances of the parameters, for the examples *)

Module Sample.

(** The text before the first character [c] of [s], and the text from that
    character on. *)
Fixpoint break_at (c : ascii) (s : string) : string * string :=
  match s with
  | EmptyString => (EmptyString, EmptyString)
  | String d rest =>
      if Ascii.eqb c d then (EmptyString, s)
      else let (before, from) := break_at c rest in (String d before, from)
  end.

(** What [url.parse] answers on the two shapes of URL the examples use,
    [scheme://host/path] in lower case and a plain [path], both free of query,
    fragment, blanks and characters that need escaping: the former splits
    into the protocol with its colon, the host and the path from its first
    slash on; the latter has neither protocol nor host. *)
Definition url_parse (urlString : string) : completion Url :=
  match split_first "://" urlString with
  | Some (scheme, rest) =>
      let (authority, rest_path) := break_at "/" rest in
      Normal (mkUrl (JStr (scheme ++ ":")) (JStr authority)
                    (JStr (if String.eqb rest_path "" then "/" else rest_path)))
  | None => Normal (mkUrl JNull JNull (JStr urlString))
  end.

(** A query string made of [name=value] pairs joined by an ampersand, empty
    for an object without properties and for anything that is not an
    object. *)
Definition getPlainQuery (query : JsValue) : string :=
  match query with
  | JObj props => join "&" (List.map (fun p => fst p ++ "=" ++ ToString (snd p)) props)
  | _ => ""
  end.

(** A data processor with no template and no map to expand. *)
Definition processMaps : M unit := ret tt.
Definition processTemplates : M unit := ret tt.
Definition processData (request : Request.t) : M Request.t := ret request.

(** A request as a builder leaves it after [get(url)]. *)
Definition get (url : string) : Request.t :=
  Request.mk url None JUndefined None JUndefined JUndefined None
             JUndefined JUndefined JUndefined JUndefined.

(** The default-header object of the configuration lives at location 1. *)
Definition defaults_loc : loc := 1%positive.

(** A world whose configuration has the given base URL and default headers,
    a default timeout of 3000 ms and no redirect default. *)
Definition world (baseUrl : string) (defaults : gmap string JsValue) : World :=
  mkWorld {[ defaults_loc := defaults ]}
          (Config.mk baseUrl (JNum 3000) defaults_loc JUndefined).

(** A world that also holds a header object of a request, at location 2. *)
Definition own_loc : loc := 2%positive.

Definition world_with (baseUrl : string) (defaults own : gmap string JsValue) : World :=
  mkWorld {[ defaults_loc := defaults; own_loc := own ]}
          (Config.mk baseUrl (JNum 3000) defaults_loc JUndefined).

(** [get(url).withRequestTimeout(0)]. *)
Definition timeout_zero : Request.t :=
  Request.with_timeout (JNum 0) (get "http://localhost:9393/api/users").

(** A URL that names the same path parameter twice. *)
Definition two_tokens : Request.t :=
  Request.mk "/users/{id}/friends/{id}" (Some [("id", JNum 7)]) JUndefined None
             JUndefined JUndefined None JUndefined JUndefined JUndefined JUndefined.

(** A request whose body is the number 5. *)
Definition number_body : Request.t :=
  Request.with_body (JNum 5) (get "http://localhost:9393/api/count").

(** A request with a path parameter and a query parameter. *)
Definition user_page : Request.t :=
  Request.mk "/api/users/{id}" (Some [("id", JNum 7)]) (JObj [("page", JNum 2)]) None
             JUndefined JUndefined None JUndefined JUndefined JUndefined JUndefined.

(** A request whose URL already holds a query. *)
Definition search_page : Request.t :=
  Request.mk "/search?q=1" None (JObj [("page", JNum 2)]) None
             JUndefined JUndefined None JUndefined JUndefined JUndefined JUndefined.

(** A request that declares an [accept] header, kept at [own_loc]. *)
Definition with_accept : Request.t :=
  Request.with_headers (Some own_loc) (get "http://localhost:9393/api/users").

Definition accept_json : gmap string JsValue := {[ "accept" := JStr "application/json" ]}.

Definition default_headers : gmap string JsValue :=
  {[ "accept" := JStr "*/*"; "x-api-key" := JStr "secret" ]}.

(** A request that declares a content type and a multipart form. *)
Definition upload_form : FormData :=
  mkFormData "--b  file  --b--"
             {[ "content-type" := JStr "multipart/form-data; boundary=b" ]}.

Definition upload : Request.t :=
  Request.with__multiPartFormData (Some upload_form)
    (Request.with_headers (Some own_loc) (get "http://localhost:9393/api/files")).

Definition content_type_json : gmap string JsValue :=
  {[ "content-type" := JStr "application/json" ]}.

(** A world whose configuration follows redirects by default. *)
Definition world_redirects : World :=
  mkWorld {[ defaults_loc := ∅ ]} (Config.mk "" (JNum 3000) defaults_loc (JBool true)).

(** [get(url).withFollowRedirects(false)]. *)
Definition no_redirects : Request.t :=
  Request.with_followRedirects (JBool false) (get "http://localhost:9393/api/users").

(** [get(url).withRequestTimeout(5000)]. *)
Definition slow : Request.t :=
  Request.with_timeout (JNum 5000) (get "http://localhost:9393/api/users").

(** A request whose header object is the configuration's own. *)
Definition aliased : Request.t :=
  Request.with_headers (Some defaults_loc) (get "http://localhost:9393/api/users").

(** A request whose body is a text. *)
Definition text_body : Request.t :=
  Request.with_body (JStr "hello") (get "http://localhost:9393/api/notes").

(** A path parameter the URL does not name. *)
Definition unused_param : Request.t :=
  Request.mk "/api/users" (Some [("id", JNum 7)]) JUndefined None
             JUndefined JUndefined None JUndefined JUndefined JUndefined JUndefined.

(** A path parameter whose value starts with two dollar signs. *)
Definition dollar_amount : Request.t :=
  Request.mk "/pay/{amt}" (Some [("amt", JStr "$$5")]) JUndefined None
             JUndefined JUndefined None JUndefined JUndefined JUndefined JUndefined.

(** A declared content type spelt with capitals. *)
Definition capital_content_type : gmap string JsValue :=
  {[ "Content-Type" := JStr "application/json" ]}.

End Sample.

(** ** The assembly steps *)

Section RequestProcessor.

Local Open Scope js_scope.
Set Default Proof Using "Type".

(** [url.parse] of Node.js; it may throw. *)
Variable url_parse : string -> completion Url.

(** [helper.getPlainQuery]: the query string of the query-parameter object,
    empty when there is nothing to append. *)
Variable getPlainQuery : JsValue -> string.

(** The data processor: [processMaps], [processTemplates] and
    [processData]. *)
Variable processMaps : M unit.
Variable processTemplates : M unit.
Variable processData : Request.t -> M Request.t.

Definition setBaseUrl (request : Request.t) : M Request.t :=
  cfg <- read config_request ;;
  let request :=
    if negb (String.eqb (Config.baseUrl cfg) "") && negb (startsWith (Request.url request) "http")
    then Request.with_url (Config.baseUrl cfg ++ Request.url request) request
    else request in
  _url <- lift (url_parse (Request.url request)) ;;
  let request := Request.with_path (pathname _url) request in
  ret (Request.with_baseUrl
         (JStr (ToString (protocol _url) ++ "//" ++ ToString (host _url))) request).

(** One turn of the loop of [setPathParams]. *)
Definition replacePathParam (pathParams : list (string * JsValue))
    (request : Request.t) (pathParam : string) : Request.t :=
  Request.with_url
    (String_replace (Request.url request) ("{" ++ pathParam ++ "}")
                    (ToString (get_property pathParams pathParam)))
    request.

Definition setPathParams (request : Request.t) : M Request.t :=
  match Request.pathParams request with
  | Some pathParams =>
      ret (fold_left (replacePathParam pathParams) (Object_keys pathParams) request)
  | None => ret request
  end.

Definition setQueryParams (request : Request.t) : M Request.t :=
  let query := getPlainQuery (Request.queryParams request) in
  if negb (String.eqb query "")
  then ret (Request.with_url (Request.url request ++ "?" ++ query) request)
  else ret request.

(** One turn of the loop of [setHeaders] on the request's header object at
    [l]; the default's value is read from the configuration's object. *)
Definition mergeDefaultHeader (l : loc) (prop : string) (w : World) : World :=
  if js_in prop (object_at w l) then w
  else assign l prop (js_get (object_at w (Config.headers (config_request w))) prop) w.

Definition setHeaders (request : Request.t) : M Request.t :=
  cfg <- read config_request ;;
  defaults <- read (fun w => object_at w (Config.headers cfg)) ;;
  if (0 <? size defaults)%nat then
    l <- match Request.headers request with
         | None => alloc ∅
         | Some l => ret l
         end ;;
    modify (fun w => map_fold (fun prop _ w' => mergeDefaultHeader l prop w') w defaults) ;;;
    ret (Request.with_headers (Some l) request)
  else ret request.

Definition setBody (request : Request.t) : M Request.t :=
  let request :=
    if truthy (Request.data request)
    then Request.with_body (Request.data request) request else request in
  let request :=
    if truthy (Request.body request)
    then Request.with_data (Request.body request) request else request in
  let bodyType := typeof (Request.body request) in
  if String.eqb bodyType "number" || String.eqb bodyType "boolean"
  then ret (Request.with_data (JStr (ToString (Request.body request))) request)
  else ret request.

Definition setMultiPartFormData (request : Request.t) : M Request.t :=
  match Request._multiPartFormData request with
  | Some form =>
      let request := Request.with_data (JBuffer (getBuffer form)) request in
      multiPartHeaders <- alloc (getHeaders form) ;;
      request <- match Request.headers request with
                 | None => ret (Request.with_headers (Some multiPartHeaders) request)
                 | Some l =>
                     props <- read (fun w => object_at w multiPartHeaders) ;;
                     modify (fun w =>
                       map_fold (fun prop _ w' =>
                                   assign l prop (js_get (object_at w' multiPartHeaders) prop) w')
                                w props) ;;;
                     ret request
                 end ;;
      ret (Request.with__multiPartFormData None request)
  | None => ret request
  end.

Definition setFollowRedirects (request : Request.t) : M Request.t :=
  cfg <- read config_request ;;
  if truthy (Config.followRedirects cfg)
     && String.eqb (typeof (Request.followRedirects request)) "undefined"
  then ret (Request.with_followRedirects (Config.followRedirects cfg) request)
  else ret request.

Definition process (request : Request.t) : M Request.t :=
  processMaps ;;;
  processTemplates ;;;
  request <- processData request ;;
  request <- setBaseUrl request ;;
  request <- setPathParams request ;;
  request <- setQueryParams request ;;
  request <- setHeaders request ;;
  request <- setBody request ;;
  request <- setMultiPartFormData request ;;
  request <- setFollowRedirects request ;;
  cfg <- read config_request ;;
  ret (Request.with_timeout (js_or (Request.timeout request) (Config.timeout cfg)) request).

(** The statements of [process] up to the call of [processData], *)
Definition resolve (request : Request.t) : M Request.t :=
  processMaps ;;;
  processTemplates ;;;
  processData request.

(** and those after it, which work on the request [processData] returned. *)
Definition assemble (request : Request.t) : M Request.t :=
  request <- setBaseUrl request ;;
  request <- setPathParams request ;;
  request <- setQueryParams request ;;
  request <- setHeaders request ;;
  request <- setBody request ;;
  request <- setMultiPartFormData request ;;
  request <- setFollowRedirects request ;;
  cfg <- read config_request ;;
  ret (Request.with_timeout (js_or (Request.timeout request) (Config.timeout cfg)) request).


(** * Properties *)

(** The steps that call none of the imported functions are proved with the
    parameters out of sight. *)
Ltac no_params :=
  clear url_parse getPlainQuery processMaps processTemplates processData.

(** ** Strings *)

Lemma prefix_true_iff (p s : string) :
  String.prefix p s = true <-> exists t, s = p ++ t.
Proof.
  no_params.
  revert s. induction p as [|c p IH]; intros s.
  - split; [intros _; exists s; reflexivity | intros _; now destruct s].
  - destruct s as [|d s]; simpl.
    + split; [discriminate | intros [t Ht]; discriminate].
    + destruct (ascii_dec c d) as [->|Hne].
      * rewrite IH. split; intros [t Ht]; exists t; [now rewrite Ht | now inversion Ht].
      * split; [discriminate | intros [t Ht]; simpl in Ht; congruence].
Qed.

Lemma String_slice_app (p t : string) : String_slice (String.length p) (p ++ t) = t.
Proof. no_params. induction p as [|c p IH]; simpl; [now destruct t | exact IH]. Qed.

Lemma append_assoc (a b c : string) : (a ++ b) ++ c = a ++ b ++ c.
Proof. no_params. induction a as [|x a IH]; simpl; [reflexivity | now rewrite IH]. Qed.

Lemma append_empty_r (a : string) : a ++ "" = a.
Proof. no_params. induction a as [|x a IH]; simpl; [reflexivity | now rewrite IH]. Qed.

Lemma prefix_slice (p s : string) :
  String.prefix p s = true -> s = p ++ String_slice (String.length p) s.
Proof. no_params. intros [t ->]%prefix_true_iff. now rewrite String_slice_app. Qed.

Lemma split_first_unfold (pat s : string) :
  split_first pat s =
  if String.prefix pat s then Some ("", String_slice (String.length pat) s)
  else match s with
       | EmptyString => None
       | String c rest =>
           match split_first pat rest with
           | Some (before, after) => Some (String c before, after)
           | None => None
           end
       end.
Proof. no_params. now destruct s. Qed.

(** [split_first] finds an occurrence of the pattern, *)
Lemma split_first_Some (pat s before after : string) :
  split_first pat s = Some (before, after) -> s = before ++ pat ++ after.
Proof.
  no_params.
  revert before after. induction s as [|c s IH]; intros before after;
    rewrite split_first_unfold; destruct (String.prefix pat _) eqn:Hp.
  - intros [= <- <-]. now apply prefix_slice.
  - discriminate.
  - intros [= <- <-]. now apply prefix_slice.
  - destruct (split_first pat s) as [[b a]|]; [|discriminate].
    intros [= <- <-]. simpl. f_equal. now apply IH.
Qed.

(** the leftmost one, *)
Lemma split_first_leftmost (pat s before after : string) :
  split_first pat s = Some (before, after) ->
  forall b a, s = b ++ pat ++ a -> (String.length before <= String.length b)%nat.
Proof.
  no_params.
  revert before after. induction s as [|c s IH]; intros before after;
    rewrite split_first_unfold; destruct (String.prefix pat _) eqn:Hp.
  - intros [= <- <-] b a _. simpl. lia.
  - discriminate.
  - intros [= <- <-] b a _. simpl. lia.
  - destruct (split_first pat s) as [[b0 a0]|] eqn:Hs; [|discriminate].
    intros [= <- <-] b a Hba. destruct b as [|d b]; simpl in Hba.
    + assert (String.prefix pat (String c s) = true) as Habs
        by (apply prefix_true_iff; now exists a).
      congruence.
    + inversion Hba; subst. simpl. specialize (IH _ _ eq_refl b a eq_refl). lia.
Qed.

(** and answers [None] only when the pattern does not occur. *)
Lemma split_first_None (pat s : string) :
  split_first pat s = None -> forall b a, s <> b ++ pat ++ a.
Proof.
  no_params.
  induction s as [|c s IH];
    rewrite split_first_unfold; destruct (String.prefix pat _) eqn:Hp;
    try discriminate.
  - intros _ b a Hba. assert (String.prefix pat "" = true) as Habs; [|congruence].
    apply prefix_true_iff. destruct b; [now exists a | discriminate].
  - destruct (split_first pat s) as [[b0 a0]|] eqn:Hs; [discriminate|].
    intros _ b a Hba. destruct b as [|d b]; simpl in Hba.
    + assert (String.prefix pat (String c s) = true) as Habs; [|congruence].
      apply prefix_true_iff. now exists a.
    + inversion Hba; subst. now apply (IH eq_refl b a).
Qed.

(** ** Header objects *)

Lemma object_at_assign_eq (l : loc) (prop : string) (v : JsValue) (w : World) :
  object_at (assign l prop v w) l = <[prop := v]> (object_at w l).
Proof. no_params. unfold object_at at 1, assign. simpl. now rewrite lookup_insert_eq. Qed.

Lemma heap_assign_ne (l l' : loc) (prop : string) (v : JsValue) (w : World) :
  l' <> l -> heap (assign l prop v w) !! l' = heap w !! l'.
Proof. no_params. intros Hne. unfold assign. simpl. now rewrite lookup_insert_ne. Qed.

Lemma dom_heap_assign (l : loc) (prop : string) (v : JsValue) (w : World) :
  dom (heap w) ⊆ dom (heap (assign l prop v w)).
Proof. no_params. unfold assign. simpl. rewrite dom_insert_L. set_solver. Qed.

Lemma js_in_false (prop : string) (o : gmap string JsValue) :
  js_in prop o = false <-> o !! prop = None /\ inherited prop = false.
Proof.
  no_params.
  unfold js_in. rewrite orb_false_iff, bool_decide_eq_false.
  rewrite <- eq_None_not_Some. reflexivity.
Qed.

(** The loop of [setHeaders]: the configuration and every other object stay
    as they are, and the object at [l] keeps its properties and gains the
    defaults whose name it neither has nor inherits. *)
Lemma mergeDefaultHeader_fold (l : loc) (w : World) :
  let defaults := object_at w (Config.headers (config_request w)) in
  let w' := map_fold (fun prop _ w' => mergeDefaultHeader l prop w') w defaults in
  config_request w' = config_request w /\
  dom (heap w) ⊆ dom (heap w') /\
  (forall l', l' <> l -> heap w' !! l' = heap w !! l') /\
  (forall k, object_at w' l !! k =
             match object_at w l !! k with
             | Some v => Some v
             | None => if inherited k then None else defaults !! k
             end).
Proof.
  no_params.
  intros defaults w'. subst w'.
  cut (forall m : gmap string JsValue, m ⊆ defaults ->
         let w' := map_fold (fun prop _ w' => mergeDefaultHeader l prop w') w m in
         config_request w' = config_request w /\
         dom (heap w) ⊆ dom (heap w') /\
         (forall l', l' <> l -> heap w' !! l' = heap w !! l') /\
         (forall k, object_at w' l !! k =
                    match object_at w l !! k with
                    | Some v => Some v
                    | None => if inherited k then None else m !! k
                    end)).
  { intros H. now apply H. }
  intros m.
  apply (map_fold_weak_ind
           (fun (r : World) (m : gmap string JsValue) =>
              m ⊆ defaults ->
              config_request r = config_request w /\
              dom (heap w) ⊆ dom (heap r) /\
              (forall l', l' <> l -> heap r !! l' = heap w !! l') /\
              (forall k, object_at r l !! k =
                         match object_at w l !! k with
                         | Some v => Some v
                         | None => if inherited k then None else m !! k
                         end))).
  - intros _. repeat split; try done.
    intros k. rewrite lookup_empty. destruct (object_at w l !! k); [done|].
    now destruct (inherited k).
  - clear m. intros i x m r Hi IH Hsub.
    assert (defaults !! i = Some x) as Hx
      by (eapply lookup_weaken; [apply lookup_insert_eq | exact Hsub]).
    destruct IH as (Hcfg & Hdom & Hframe & Hobj).
    { etrans; [|exact Hsub]. now apply insert_subseteq. }
    unfold mergeDefaultHeader.
    destruct (js_in i (object_at r l)) eqn:Hin.
    + repeat split; try done.
      intros k. rewrite Hobj. destruct (object_at w l !! k) eqn:Hk; [done|].
      destruct (inherited k) eqn:Hinh; [done|].
      destruct (decide (i = k)) as [->|Hne]; [|now rewrite lookup_insert_ne].
      exfalso. unfold js_in in Hin. rewrite Hinh, orb_false_r in Hin.
      apply bool_decide_eq_true in Hin as [v Hv].
      rewrite Hobj, Hk, Hinh, Hi in Hv. discriminate.
    + apply js_in_false in Hin as [Hnone Hinh].
      assert (js_get (object_at r (Config.headers (config_request r))) i = x) as ->.
      { rewrite Hcfg. unfold js_get.
        destruct (decide (Config.headers (config_request w) = l)) as [Heq|Hne].
        - exfalso. rewrite Hobj in Hnone. fold defaults in Hx.
          unfold defaults in Hx. rewrite Heq in Hx. rewrite Hx in Hnone. discriminate.
        - unfold object_at at 1. rewrite (Hframe _ Hne).
          fold (object_at w (Config.headers (config_request w))).
          fold defaults. now rewrite Hx. }
      repeat split.
      * exact Hcfg.
      * etrans; [exact Hdom | apply dom_heap_assign].
      * intros l' Hne. rewrite heap_assign_ne by done. now apply Hframe.
      * intros k. rewrite object_at_assign_eq.
        destruct (decide (i = k)) as [->|Hne].
        -- rewrite lookup_insert_eq. rewrite Hobj in Hnone.
           destruct (object_at w l !! k); [discriminate|].
           now rewrite Hinh, lookup_insert_eq.
        -- rewrite !lookup_insert_ne by done. apply Hobj.
Qed.

(** The loop of [setMultiPartFormData]: the object at [l] takes every
    property of the object at [from] and keeps its other properties. *)
Lemma copyHeaders_fold (l from : loc) (w : World) :
  let props := object_at w from in
  let w' := map_fold (fun prop _ w' => assign l prop (js_get (object_at w' from) prop) w')
                     w props in
  config_request w' = config_request w /\
  dom (heap w) ⊆ dom (heap w') /\
  (forall l', l' <> l -> heap w' !! l' = heap w !! l') /\
  (forall k, object_at w' l !! k =
             match props !! k with
             | Some v => Some v
             | None => object_at w l !! k
             end).
Proof.
  no_params.
  intros props w'. subst w'.
  cut (forall m : gmap string JsValue, m ⊆ props ->
         let w' := map_fold (fun prop _ w' =>
                               assign l prop (js_get (object_at w' from) prop) w') w m in
         config_request w' = config_request w /\
         dom (heap w) ⊆ dom (heap w') /\
         (forall l', l' <> l -> heap w' !! l' = heap w !! l') /\
         (forall k, object_at w' l !! k =
                    match m !! k with
                    | Some v => Some v
                    | None => object_at w l !! k
                    end)).
  { intros H. now apply H. }
  intros m.
  apply (map_fold_weak_ind
           (fun (r : World) (m : gmap string JsValue) =>
              m ⊆ props ->
              config_request r = config_request w /\
              dom (heap w) ⊆ dom (heap r) /\
              (forall l', l' <> l -> heap r !! l' = heap w !! l') /\
              (forall k, object_at r l !! k =
                         match m !! k with
                         | Some v => Some v
                         | None => object_at w l !! k
                         end))).
  - intros _. repeat split; try done.
  - clear m. intros i x m r Hi IH Hsub.
    assert (props !! i = Some x) as Hx
      by (eapply lookup_weaken; [apply lookup_insert_eq | exact Hsub]).
    destruct IH as (Hcfg & Hdom & Hframe & Hobj).
    { etrans; [|exact Hsub]. now apply insert_subseteq. }
    assert (js_get (object_at r from) i = x) as ->.
    { unfold js_get. destruct (decide (from = l)) as [->|Hne].
      - rewrite Hobj, Hi. fold props. now rewrite Hx.
      - unfold object_at at 1. rewrite (Hframe _ Hne).
        fold (object_at w from). fold props. now rewrite Hx. }
    repeat split.
    + exact Hcfg.
    + etrans; [exact Hdom | apply dom_heap_assign].
    + intros l' Hne. rewrite heap_assign_ne by done. now apply Hframe.
    + intros k. rewrite object_at_assign_eq.
      destruct (decide (i = k)) as [->|Hne].
      * now rewrite !lookup_insert_eq.
      * rewrite !lookup_insert_ne by done. apply Hobj.
Qed.

(** ** Requests *)

Lemma with_url_id (r : Request.t) : Request.with_url (Request.url r) r = r.
Proof. no_params. now destruct r. Qed.

Lemma with_headers_id (r : Request.t) : Request.with_headers (Request.headers r) r = r.
Proof. no_params. now destruct r. Qed.

Lemma with_followRedirects_id (r : Request.t) :
  Request.with_followRedirects (Request.followRedirects r) r = r.
Proof. no_params. now destruct r. Qed.

Lemma object_at_alloc_fresh (o : gmap string JsValue) (w : World) :
  let l := fresh (dom (heap w)) in
  let w' := mkWorld (<[l := o]> (heap w)) (config_request w) in
(l ∉ dom (heap w)) /\ object_at w' l = o /\
  (forall l', l' ∈ dom (heap w) -> heap w' !! l' = heap w !! l') /\
  dom (heap w) ⊆ dom (heap w').
Proof.
  no_params.
  intros l w'. pose proof (is_fresh (dom (heap w))) as Hfresh. fold l in Hfresh.
  repeat split.
  - exact Hfresh.
  - unfold object_at, w'. simpl. now rewrite lookup_insert_eq.
  - intros l' Hl'. unfold w'. simpl. rewrite lookup_insert_ne; [done|].
    intros ->. contradiction.
  - unfold w'. simpl. rewrite dom_insert_L. set_solver.
Qed.

Lemma object_at_nonempty_dom (w : World) (l : loc) :
  (0 < size (object_at w l))%nat -> l ∈ dom (heap w).
Proof.
  no_params.
  unfold object_at. intros Hsize. apply elem_of_dom.
  destruct (heap w !! l); [done|]. simpl in Hsize. rewrite map_size_empty in Hsize. lia.
Qed.

(** ** The steps that touch header objects *)

(** [setHeaders]: what happens to the request, to its header object and to
    the rest of the world. *)
Lemma setHeaders_spec (r : Request.t) (w : World) :
  exists (h : option loc) (w' : World),
    setHeaders r w = Normal (Request.with_headers h r, w') /\
    config_request w' = config_request w /\
    dom (heap w) ⊆ dom (heap w') /\
    (forall l, l ∈ dom (heap w) -> Request.headers r <> Some l ->
               heap w' !! l = heap w !! l) /\
    (forall l, h = Some l -> Request.headers r = Some l \/ l ∉ dom (heap w)) /\
    (forall k, headers_of w' (Request.with_headers h r) !! k =
               match headers_of w r !! k with
               | Some v => Some v
               | None =>
                   if inherited k then None
                   else object_at w (Config.headers (config_request w)) !! k
               end).
Proof.
  no_params.
  unfold setHeaders, bind, read, ret, modify.
  set (defaults := object_at w (Config.headers (config_request w))).
  destruct (0 <? size defaults)%nat eqn:Hsize.
  - apply Nat.ltb_lt in Hsize.
    pose proof (object_at_nonempty_dom _ _ Hsize) as Hlc.
    destruct (Request.headers r) as [l|] eqn:Hh.
    + pose proof (mergeDefaultHeader_fold l w) as (Hcfg & Hdom & Hframe & Hobj).
      fold defaults in Hobj. simpl.
      eexists (Some l), _. split; [reflexivity|]. repeat split; try done.
      * intros l' _ Hne. apply Hframe. congruence.
      * intros l' [= <-]. now left.
      * intros k. unfold headers_of. simpl. rewrite Hh. apply Hobj.
    + unfold alloc.
      pose proof (object_at_alloc_fresh ∅ w) as (Hfresh & Hnew & Hold & Hdom1).
      set (l := fresh (dom (heap w))) in *.
      set (w1 := mkWorld (<[l := ∅]> (heap w)) (config_request w)) in *.
      pose proof (mergeDefaultHeader_fold l w1) as (Hcfg & Hdom & Hframe & Hobj).
      assert (object_at w1 (Config.headers (config_request w1)) = defaults) as Hsame.
      { unfold object_at at 1. simpl. now rewrite Hold. }
      rewrite Hsame in Hcfg, Hdom, Hframe, Hobj.
      eexists (Some l), _. split; [reflexivity|]. repeat split; try done.
      * etrans; [exact Hdom1 | exact Hdom].
      * intros l' Hl' _. rewrite Hframe; [now apply Hold|]. intros ->. contradiction.
      * intros l' [= <-]. now right.
      * intros k. unfold headers_of. simpl. rewrite Hh, Hobj, Hnew.
        now rewrite !lookup_empty.
  - apply Nat.ltb_ge in Hsize.
    assert (defaults = ∅) as Hempty by (apply map_size_empty_iff; lia).
    exists (Request.headers r), w. rewrite with_headers_id.
    split; [reflexivity|]. repeat split; try done.
    + intros l ->. now left.
    + intros k. rewrite Hempty, lookup_empty.
      destruct (headers_of w r !! k); [done|]. now destruct (inherited k).
Qed.

(** [setMultiPartFormData] on a request that declares multipart form data. *)
Lemma setMultiPartFormData_spec (r : Request.t) (w : World) (form : FormData) :
  Request._multiPartFormData r = Some form ->
  exists (l : loc) (w' : World),
    setMultiPartFormData r w =
      Normal (Request.with__multiPartFormData None
                (Request.with_headers (Some l)
                   (Request.with_data (JBuffer (getBuffer form)) r)), w') /\
    config_request w' = config_request w /\
    dom (heap w) ⊆ dom (heap w') /\
    (forall l', l' ∈ dom (heap w) -> Request.headers r <> Some l' ->
                heap w' !! l' = heap w !! l') /\
    (Request.headers r = Some l \/ l ∉ dom (heap w)) /\
    (forall k, object_at w' l !! k =
               match getHeaders form !! k with
               | Some v => Some v
               | None => headers_of w r !! k
               end).
Proof.
  no_params.
  intros Hform. unfold setMultiPartFormData, bind, read, ret, modify, alloc.
  rewrite Hform.
  pose proof (object_at_alloc_fresh (getHeaders form) w) as (Hfresh & Hnew & Hold & Hdom1).
  set (from := fresh (dom (heap w))) in *.
  set (w1 := mkWorld (<[from := getHeaders form]> (heap w)) (config_request w)) in *.
  cbn [Request.headers Request.with_data].
  destruct (Request.headers r) as [l|] eqn:Hh.
  - pose proof (copyHeaders_fold l from w1) as (Hcfg & Hdom & Hframe & Hobj).
    rewrite Hnew in Hcfg, Hdom, Hframe, Hobj. rewrite Hnew.
    eexists l, _. split.
    { do 2 f_equal. destruct r; simpl in *; now subst. }
    repeat split; try done.
    + etrans; [exact Hdom1 | exact Hdom].
    + intros l' Hl' Hne. rewrite Hframe by congruence. now apply Hold.
    + now left.
    + intros k. rewrite Hobj. unfold headers_of. rewrite Hh.
      destruct (getHeaders form !! k) eqn:Hk; [done|].
      destruct (decide (l = from)) as [->|Hne].
      * rewrite Hnew, Hk. unfold object_at.
        now apply not_elem_of_dom in Hfresh as ->.
      * unfold object_at, w1. simpl. now rewrite lookup_insert_ne.
  - exists from, w1. split; [reflexivity|].
    repeat split; try done.
    + intros l' Hl' _. now apply Hold.
    + now right.
    + intros k. rewrite Hnew. unfold headers_of. rewrite Hh, lookup_empty.
      now destruct (getHeaders form !! k).
Qed.

(** Without multipart form data the step does nothing. *)
Lemma setMultiPartFormData_none (r : Request.t) (w : World) :
  Request._multiPartFormData r = None -> setMultiPartFormData r w = Normal (r, w).
Proof. no_params. intros H. unfold setMultiPartFormData. now rewrite H. Qed.

(** ** Path parameters *)

Lemma append_same_length (a b c d : string) :
  a ++ b = c ++ d -> String.length a = String.length c -> a = c /\ b = d.
Proof.
  no_params.
  revert c. induction a as [|x a IH]; intros [|y c]; simpl; try discriminate.
  - now intros -> _.
  - intros [= -> Hrest] [= Hlen]. destruct (IH _ Hrest Hlen) as [-> ->]. now split.
Qed.

Lemma occurs_false_iff (pat s : string) :
  occurs pat s = false <-> forall b a, s <> b ++ pat ++ a.
Proof.
  no_params.
  unfold occurs. destruct (split_first pat s) as [[b a]|] eqn:Hs.
  - split; [discriminate|]. intros H. now apply split_first_Some, H in Hs.
  - split; [|reflexivity]. intros _. now apply split_first_None.
Qed.

(** The leftmost occurrence is the one [split_first] answers. *)
Lemma split_first_complete (pat before after : string) :
  (forall b a, before ++ pat ++ after = b ++ pat ++ a ->
               (String.length before <= String.length b)%nat) ->
  split_first pat (before ++ pat ++ after) = Some (before, after).
Proof.
  no_params.
  intros Hleft.
  destruct (split_first pat (before ++ pat ++ after)) as [[b a]|] eqn:Hs.
  - pose proof (split_first_Some _ _ _ _ Hs) as Heq.
    pose proof (split_first_leftmost _ _ _ _ Hs before after eq_refl) as Hle.
    pose proof (Hleft b a Heq) as Hge.
    destruct (append_same_length _ _ _ _ Heq) as [-> Hrest]; [lia|].
    destruct (append_same_length _ _ _ _ Hrest) as [_ ->]; [reflexivity|].
    reflexivity.
  - exfalso. exact (split_first_None _ _ Hs before after eq_refl).
Qed.

(** A replacement text without a dollar sign is inserted as it is. *)
Lemma GetSubstitution_plain (matched before after replacement : string) :
  mentions "$" replacement = false ->
  GetSubstitution matched before after replacement = replacement.
Proof.
  no_params.
  induction replacement as [|c tl IH]; [reflexivity|].
  cbn [mentions]. intros [Hc Htl]%orb_false_iff.
  cbn [GetSubstitution]. rewrite Ascii.eqb_sym, Hc. f_equal. now apply IH.
Qed.

Lemma fold_replacePathParam (pathParams : list (string * JsValue))
    (names : list string) (r : Request.t) :
  exists u, fold_left (replacePathParam pathParams) names r = Request.with_url u r.
Proof.
  no_params.
  revert r. induction names as [|name names IH]; intros r; simpl.
  - exists (Request.url r). now rewrite with_url_id.
  - destruct (IH (replacePathParam pathParams r name)) as [u ->]. now exists u.
Qed.

Lemma setPathParams_shape (r : Request.t) (w : World) :
  exists u, setPathParams r w = Normal (Request.with_url u r, w).
Proof.
  no_params.
  unfold setPathParams, ret. destruct (Request.pathParams r) as [ps|].
  - destruct (fold_replacePathParam ps (Object_keys ps) r) as [u ->]. now exists u.
  - exists (Request.url r). now rewrite with_url_id.
Qed.

(** C2, as amended.  [setPathParams] never fails and leaves the world alone.
    It takes the declared path parameters one after the other, in the order
    of [Object.keys]; a turn changes nothing but the URL; when the token
    [{name}] does not occur in the URL the turn leaves the URL as it is; when
    it does, the turn replaces its leftmost occurrence only, and by the text
    of the parameter's value when that text holds no dollar sign. *)
Theorem setPathParams_replaces_first_occurrence
    (r : Request.t) (w : World) (pathParams : list (string * JsValue)) :
  Request.pathParams r = Some pathParams ->
  setPathParams r w =
    Normal (fold_left (replacePathParam pathParams) (Object_keys pathParams) r, w) /\
  forall (request : Request.t) (name : string),
    let token := "{" ++ name ++ "}" in
    let value := ToString (get_property pathParams name) in
    let request' := replacePathParam pathParams request name in
    request' = Request.with_url (Request.url request') request /\
    (occurs token (Request.url request) = false ->
     Request.url request' = Request.url request) /\
    (forall before after,
        Request.url request = before ++ token ++ after ->
        (forall b a, Request.url request = b ++ token ++ a ->
                     (String.length before <= String.length b)%nat) ->
        mentions "$" value = false ->
        Request.url request' = before ++ value ++ after).
Proof.
  no_params.
  intros Hps. split.
  - unfold setPathParams. now rewrite Hps.
  - intros request name token value request'. subst request'.
    unfold replacePathParam. fold token. fold value. cbn [Request.url Request.with_url].
    split; [reflexivity|]. split.
    + unfold occurs, String_replace.
      now destruct (split_first token (Request.url request)) as [[b a]|].
    + intros before after Hurl Hleft Hplain. unfold String_replace.
      rewrite Hurl in Hleft |- *.
      rewrite (split_first_complete _ _ _ Hleft).
      now rewrite GetSubstitution_plain.
Qed.

(** ** The body *)

(** The cases of a value on which [truthy] and [typeof] compute. *)
Ltac case_value v := destruct v as [| |[|]|[|?|?]|[|? ?]|?|?|?].

Lemma setBody_shape (r : Request.t) (w : World) :
  exists r', setBody r w = Normal (r', w) /\
             r' = Request.with_data (Request.data r') (Request.with_body (Request.body r') r).
Proof.
  no_params.
  destruct r as [u pp qp h d b mp fr t pa bu]. unfold setBody, ret.
  case_value d; case_value b; eexists; split; reflexivity.
Qed.

(** C3, as amended.  [setBody] never fails and leaves the world alone.  A
    truthy [data] is copied to [body]; otherwise [body] stays.  After that, a
    [body] that is a number or a boolean leaves its text in [data] while
    [body] keeps the scalar; any other [body] is what [data] holds too, as
    soon as one of the two fields was truthy. *)
Theorem setBody_data_first_then_scalar_text (r : Request.t) (w : World) :
  exists r',
    setBody r w = Normal (r', w) /\
    (truthy (Request.data r) = true -> Request.body r' = Request.data r) /\
    (truthy (Request.data r) = false -> Request.body r' = Request.body r) /\
    (typeof (Request.body r') = "number" \/ typeof (Request.body r') = "boolean" ->
     Request.data r' = JStr (ToString (Request.body r'))) /\
    (typeof (Request.body r') <> "number" ->
     typeof (Request.body r') <> "boolean" ->
     truthy (Request.data r) = true \/ truthy (Request.body r) = true ->
     Request.data r' = Request.body r').
Proof.
  no_params.
  destruct r as [u pp qp h d b mp fr t pa bu]. unfold setBody, ret.
  case_value d; case_value b; (eexists; split; [reflexivity|]); simpl;
    repeat split; intros; try reflexivity; try discriminate;
    try contradiction; intuition discriminate.
Qed.

(** ** The redirect default *)

Lemma setFollowRedirects_shape (r : Request.t) (w : World) :
  exists f, setFollowRedirects r w = Normal (Request.with_followRedirects f r, w).
Proof.
  no_params.
  unfold setFollowRedirects, bind, read, ret.
  destruct (truthy _ && String.eqb _ _).
  - now eexists.
  - exists (Request.followRedirects r). now rewrite with_followRedirects_id.
Qed.

(** ** The steps that depend on the imported functions *)

(** The URL [setBaseUrl] hands to [url.parse]. *)
Local Abbreviation prefixed w r :=
  (if negb (String.eqb (Config.baseUrl (config_request w)) "")
      && negb (startsWith (Request.url r) "http")
   then Config.baseUrl (config_request w) ++ Request.url r
   else Request.url r).

Lemma setBaseUrl_unfold (r : Request.t) (w : World) :
  setBaseUrl r w =
  match url_parse (prefixed w r) with
  | Normal parts =>
      Normal (Request.with_baseUrl
                (JStr (ToString (protocol parts) ++ "//" ++ ToString (host parts)))
                (Request.with_path (pathname parts)
                   (Request.with_url (prefixed w r) r)), w)
  | Throw e => Throw e
  end.
Proof.
  unfold setBaseUrl, bind, read, ret, lift.
  destruct (negb _ && negb _); cbn [Request.url Request.with_url].
  - now destruct (url_parse _).
  - rewrite with_url_id. now destruct (url_parse _).
Qed.

(** C6, as amended.  When [setBaseUrl] returns, the URL is the configured
    base URL followed by the request's URL if a base URL is configured and
    the request's URL does not start with the characters [http]; it is the
    request's URL unchanged if that URL starts with [http], and also if no
    base URL is configured. *)
Theorem setBaseUrl_prefixes_unless_http
    (r : Request.t) (w : World) (r' : Request.t) (w' : World) :
  setBaseUrl r w = Normal (r', w') ->
  (Config.baseUrl (config_request w) <> "" ->
   startsWith (Request.url r) "http" = false ->
   Request.url r' = Config.baseUrl (config_request w) ++ Request.url r) /\
  (startsWith (Request.url r) "http" = true -> Request.url r' = Request.url r) /\
  (Config.baseUrl (config_request w) = "" -> Request.url r' = Request.url r).
Proof.
  rewrite setBaseUrl_unfold. destruct (url_parse _) as [parts|]; [|discriminate].
  intros [= <- <-]. cbn [Request.url Request.with_baseUrl Request.with_path Request.with_url].
  repeat split.
  - intros Hbase%String.eqb_neq ->. now rewrite Hbase.
  - intros ->. now rewrite andb_false_r.
  - intros ->%String.eqb_eq. reflexivity.
Qed.

Lemma setQueryParams_shape (r : Request.t) (w : World) :
  exists u, setQueryParams r w = Normal (Request.with_url u r, w).
Proof.
  unfold setQueryParams, ret. destruct (negb _).
  - now eexists.
  - exists (Request.url r). now rewrite with_url_id.
Qed.

(** C10.  [setQueryParams] never fails and changes nothing but the URL.  A
    query string that is not empty is appended to the URL after a question
    mark, whatever the URL holds; with an empty query string the URL stays,
    which is the case of an empty mapping as soon as [getPlainQuery] answers
    the empty string for it. *)
Theorem setQueryParams_appends_after_question_mark (r : Request.t) (w : World) :
  let query := getPlainQuery (Request.queryParams r) in
  exists r',
    setQueryParams r w = Normal (r', w) /\
    r' = Request.with_url (Request.url r') r /\
    (query <> "" -> Request.url r' = Request.url r ++ "?" ++ query) /\
    (query = "" -> Request.url r' = Request.url r) /\
    (getPlainQuery (JObj []) = "" -> Request.queryParams r = JObj [] ->
     Request.url r' = Request.url r).
Proof.
  intros query. unfold setQueryParams, ret. fold query.
  destruct (String.eqb_spec query "") as [Hq|Hq]; simpl.
  - exists r. rewrite with_url_id. repeat split; try done.
  - eexists. split; [reflexivity|]. cbn [Request.url Request.with_url].
    repeat split; try done.
    intros Hempty Hqp. exfalso. apply Hq. unfold query. now rewrite Hqp.
Qed.

(** ** The whole of [assemble] *)

Lemma assemble_throws (r0 : Request.t) (w0 : World) (e : JsError) :
  setBaseUrl r0 w0 = Throw e -> assemble r0 w0 = Throw e.
Proof. intros H. unfold assemble, bind. now rewrite H. Qed.

(** Once [setBaseUrl] has returned, every later step returns too; the lemma
    follows the request and the world through them. *)
Lemma assemble_run (r0 : Request.t) (w0 : World) (r1 : Request.t) :
  setBaseUrl r0 w0 = Normal (r1, w0) ->
  exists r2 r3 r4 w4 r' w',
    setPathParams r1 w0 = Normal (r2, w0) /\
    setQueryParams r2 w0 = Normal (r3, w0) /\
    setHeaders r3 w0 = Normal (r4, w4) /\
    assemble r0 w0 = Normal (r', w') /\
    Request.url r' = Request.url r3 /\
    Request.path r' = Request.path r1 /\
    Request.baseUrl r' = Request.baseUrl r1 /\
    Request.pathParams r' = Request.pathParams r1 /\
    Request.queryParams r' = Request.queryParams r1 /\
    Request.timeout r' =
      js_or (Request.timeout r1) (Config.timeout (config_request w0)) /\
    config_request w' = config_request w0 /\
    dom (heap w0) ⊆ dom (heap w') /\
    (forall l, l ∈ dom (heap w0) -> Request.headers r1 <> Some l ->
               heap w' !! l = heap w0 !! l) /\
    (forall form, Request._multiPartFormData r1 = Some form ->
       Request.data r' = JBuffer (getBuffer form) /\
       Request._multiPartFormData r' = None /\
       exists l, Request.headers r' = Some l /\
                 forall k, object_at w' l !! k =
                           match getHeaders form !! k with
                           | Some v => Some v
                           | None => headers_of w4 r4 !! k
                           end).
Proof.
  intros H1.
  destruct (setPathParams_shape r1 w0) as [u2 H2].
  destruct (setQueryParams_shape (Request.with_url u2 r1) w0) as [u3 H3].
  destruct (setHeaders_spec (Request.with_url u3 (Request.with_url u2 r1)) w0)
    as (h & w4 & H4 & Hcfg4 & Hdom4 & Hframe4 & Hloc4 & _).
  set (r4 := Request.with_headers h _) in *.
  destruct (setBody_shape r4 w4) as (r5 & H5 & Hr5).
  assert (Request._multiPartFormData r5 = Request._multiPartFormData r1) as Hmp5
    by now rewrite Hr5.
  assert (Request.headers r5 = h) as Hh5 by now rewrite Hr5.
  destruct (Request._multiPartFormData r1) as [form|] eqn:Hmp.
  - destruct (setMultiPartFormData_spec r5 w4 form Hmp5)
      as (l & w6 & H6 & Hcfg6 & Hdom6 & Hframe6 & Hloc6 & Hobj6).
    set (r6 := Request.with__multiPartFormData None _) in *.
    destruct (setFollowRedirects_shape r6 w6) as [f H7].
    eexists _, _, r4, w4, _, w6.
    split; [exact H2|]. split; [exact H3|]. split; [exact H4|]. split.
    { unfold assemble, bind, read, ret. now rewrite H1, H2, H3, H4, H5, H6, H7. }
    cbn [Request.url Request.path Request.baseUrl Request.pathParams
         Request.queryParams Request.timeout Request.with_timeout
         Request.with_followRedirects].
    subst r6. cbn. rewrite Hr5. subst r4. cbn. rewrite Hcfg6, Hcfg4.
    do 7 (split; [reflexivity|]). split; [|split].
    + etrans; [exact Hdom4 | exact Hdom6].
    + intros l' Hl' Hne. rewrite Hframe6.
      * apply Hframe4; [exact Hl' | exact Hne].
      * now apply Hdom4.
      * rewrite Hh5. intros ->. destruct (Hloc4 l' eq_refl); contradiction.
    + intros form' [= <-]. do 2 (split; [reflexivity|]). exists l.
      split; [reflexivity|].
      intros k. rewrite Hobj6. unfold headers_of. now rewrite Hh5.
  - destruct (setFollowRedirects_shape r5 w4) as [f H7].
    eexists _, _, r4, w4, _, w4.
    split; [exact H2|]. split; [exact H3|]. split; [exact H4|]. split.
    { unfold assemble, bind, read, ret.
      rewrite H1, H2, H3, H4, H5, (setMultiPartFormData_none r5 w4 Hmp5), H7.
      reflexivity. }
    cbn. rewrite Hr5. subst r4. cbn. rewrite Hcfg4.
    do 7 (split; [reflexivity|]). split; [exact Hdom4|]. split; [exact Hframe4|].
    discriminate.
Qed.

(** ** The whole of [process] *)

Lemma process_after_resolve (r : Request.t) (w : World) (r0 : Request.t) (w0 : World) :
  resolve r w = Normal (r0, w0) -> process r w = assemble r0 w0.
Proof.
  unfold resolve, process, assemble, bind.
  destruct (processMaps w) as [[[] w1]|]; [|discriminate].
  destruct (processTemplates w1) as [[[] w2]|]; [|discriminate].
  now intros ->.
Qed.

Lemma setBaseUrl_world (r : Request.t) (w : World) (r' : Request.t) (w' : World) :
  setBaseUrl r w = Normal (r', w') -> w' = w.
Proof.
  rewrite setBaseUrl_unfold. destruct (url_parse _); [|discriminate]. now intros [= _ <-].
Qed.

(** The timeout of the assembled request: the request's own when it is
    truthy, the configured default otherwise. *)
Lemma process_timeout (r : Request.t) (w : World) (r0 r' : Request.t) (w0 w' : World) :
  resolve r w = Normal (r0, w0) ->
  process r w = Normal (r', w') ->
  Request.timeout r' = js_or (Request.timeout r0) (Config.timeout (config_request w0)).
Proof.
  intros Hres Hrun. rewrite (process_after_resolve _ _ _ _ Hres) in Hrun.
  destruct (setBaseUrl r0 w0) as [[r1 w1]|e] eqn:H1;
    [|rewrite (assemble_throws _ _ _ H1) in Hrun; discriminate].
  pose proof (setBaseUrl_world _ _ _ _ H1) as ->.
  destruct (assemble_run _ _ _ H1)
    as (r2 & r3 & r4 & w4 & r'' & w'' & _ & _ & _ & Hrun' & _ & _ & _ & _ & _ & Ht & _).
  rewrite Hrun in Hrun'. injection Hrun' as <- <-. rewrite Ht.
  rewrite setBaseUrl_unfold in H1. destruct (url_parse _); [|discriminate].
  now injection H1 as <-.
Qed.

(** C4, as amended.  No step raises an [InvalidUrlError] and none checks
    what [url.parse] found.  On a request whose [url] is a string,
    [setBaseUrl] throws exactly when [url.parse] throws on the URL handed to
    it, and throws what [url.parse] threw; [process] then throws the same.
    Whatever parts [url.parse] answers, [null] ones as well, [setBaseUrl]
    returns, with [path] and [baseUrl] put together from these parts.  What
    other steps may throw, on a request without [url] or on a form that
    cannot be serialized, is outside the statement. *)
Theorem setBaseUrl_throws_what_url_parse_throws (r0 : Request.t) (w0 : World) :
  (forall e, setBaseUrl r0 w0 = Throw e <-> url_parse (prefixed w0 r0) = Throw e) /\
  (forall e r w, resolve r w = Normal (r0, w0) ->
                 url_parse (prefixed w0 r0) = Throw e -> process r w = Throw e) /\
  (forall parts, url_parse (prefixed w0 r0) = Normal parts ->
     exists r1,
       setBaseUrl r0 w0 = Normal (r1, w0) /\
       Request.url r1 = prefixed w0 r0 /\
       Request.path r1 = pathname parts /\
       Request.baseUrl r1 =
         JStr (ToString (protocol parts) ++ "//" ++ ToString (host parts))).
Proof.
  pose proof (setBaseUrl_unfold r0 w0) as H1.
  destruct (url_parse (prefixed w0 r0)) as [parts|e0].
  - split; [|split].
    + intros e. rewrite H1. split; discriminate.
    + discriminate.
    + intros parts' [= <-]. eexists. split; [exact H1|]. now repeat split.
  - split; [|split].
    + intros e. rewrite H1. split; now intros [= ->].
    + intros e r w Hres [= <-]. rewrite (process_after_resolve _ _ _ _ Hres).
      now apply assemble_throws.
    + discriminate.
Qed.

(** C9.  The [path] and [baseUrl] of the assembled request are the parts
    [url.parse] found in the URL as [setBaseUrl] left it, while the URL of
    the assembled request is that URL after [setPathParams] and
    [setQueryParams] have worked on it. *)
Theorem process_path_parsed_before_substitution
    (r : Request.t) (w : World) (r0 r' : Request.t) (w0 w' : World) :
  resolve r w = Normal (r0, w0) ->
  process r w = Normal (r', w') ->
  exists r1 r2 r3 parts,
    setBaseUrl r0 w0 = Normal (r1, w0) /\
    url_parse (Request.url r1) = Normal parts /\
    Request.path r' = pathname parts /\
    Request.baseUrl r' =
      JStr (ToString (protocol parts) ++ "//" ++ ToString (host parts)) /\
    setPathParams r1 w0 = Normal (r2, w0) /\
    setQueryParams r2 w0 = Normal (r3, w0) /\
    Request.url r' = Request.url r3.
Proof.
  intros Hres Hrun. rewrite (process_after_resolve _ _ _ _ Hres) in Hrun.
  destruct (setBaseUrl r0 w0) as [[r1 w1]|e] eqn:H1;
    [|rewrite (assemble_throws _ _ _ H1) in Hrun; discriminate].
  pose proof (setBaseUrl_world _ _ _ _ H1) as ->.
  destruct (assemble_run _ _ _ H1)
    as (r2 & r3 & r4 & w4 & r'' & w'' & H2 & H3 & _ & Hrun' & Hurl & Hpath & Hbase & _).
  rewrite Hrun in Hrun'. injection Hrun' as <- <-.
  rewrite setBaseUrl_unfold in H1.
  destruct (url_parse (prefixed w0 r0)) as [parts|] eqn:Hparse; [|discriminate].
  injection H1 as <-. eexists _, r2, r3, parts.
  split; [reflexivity|]. split; [exact Hparse|].
  split; [now rewrite Hpath|]. split; [now rewrite Hbase|]. now repeat split.
Qed.

(** C5.  After [setHeaders], a header the request declared keeps its value,
    whatever the defaults hold under that name; a header the request did not
    declare is there only as the default of that name; and the default is
    there for every name the request neither declared nor inherits from
    [Object.prototype].  Names are compared as they are written. *)
Theorem setHeaders_adds_only_missing_defaults
    (r : Request.t) (w : World) (r' : Request.t) (w' : World) :
  setHeaders r w = Normal (r', w') ->
  let defaults := object_at w (Config.headers (config_request w)) in
  (forall k v, headers_of w r !! k = Some v -> headers_of w' r' !! k = Some v) /\
  (forall k v, headers_of w r !! k = None -> headers_of w' r' !! k = Some v ->
               defaults !! k = Some v) /\
  (forall k v, headers_of w r !! k = None -> inherited k = false ->
               defaults !! k = Some v -> headers_of w' r' !! k = Some v).
Proof.
  no_params.
  intros Hrun defaults.
  destruct (setHeaders_spec r w) as (h & w'' & Hrun' & _ & _ & _ & _ & Hobj).
  rewrite Hrun in Hrun'. injection Hrun' as -> ->. fold defaults in Hobj.
  repeat split.
  - intros k v Hk. now rewrite Hobj, Hk.
  - intros k v Hk. rewrite Hobj, Hk. now destruct (inherited k).
  - intros k v Hk Hinh Hd. now rewrite Hobj, Hk, Hinh.
Qed.

(** C8.  Take a run in which data resolution left [config.request] and its
    default-header object as they were, in which that object exists, and in
    which the resolved request's header object is another object.  Then
    [config.request] and the default-header object are after [process] what
    they were before, and so is every object that existed when assembly
    began, the request's own header object apart. *)
Theorem process_leaves_configuration_unchanged
    (r : Request.t) (w : World) (r0 r' : Request.t) (w0 w' : World) :
  let defaults_loc := Config.headers (config_request w) in
  resolve r w = Normal (r0, w0) ->
  config_request w0 = config_request w ->
  heap w0 !! defaults_loc = heap w !! defaults_loc ->
  defaults_loc ∈ dom (heap w0) ->
  Request.headers r0 <> Some defaults_loc ->
  process r w = Normal (r', w') ->
  config_request w' = config_request w /\
  heap w' !! defaults_loc = heap w !! defaults_loc /\
  (forall l, l ∈ dom (heap w0) -> Request.headers r0 <> Some l ->
             heap w' !! l = heap w0 !! l).
Proof.
  intros lc Hres Hcfg0 Hobj0 Hdom0 Hsep Hrun.
  rewrite (process_after_resolve _ _ _ _ Hres) in Hrun.
  destruct (setBaseUrl r0 w0) as [[r1 w1]|e] eqn:H1;
    [|rewrite (assemble_throws _ _ _ H1) in Hrun; discriminate].
  pose proof (setBaseUrl_world _ _ _ _ H1) as ->.
  destruct (assemble_run _ _ _ H1)
    as (r2 & r3 & r4 & w4 & r'' & w'' & _ & _ & _ & Hrun' & _ & _ & _ & _ & _ & _
        & Hcfg & _ & Hframe & _).
  rewrite Hrun in Hrun'. injection Hrun' as <- <-.
  rewrite setBaseUrl_unfold in H1. destruct (url_parse _); [|discriminate].
  injection H1 as <-. cbn [Request.headers Request.with_baseUrl Request.with_path
                           Request.with_url] in Hframe.
  split; [now rewrite Hcfg|]. split; [|exact Hframe].
  rewrite <- Hobj0. now apply Hframe.
Qed.

(** * Further properties of the steps *)

(** ** The redirect default *)

(** [setFollowRedirects] never fails and changes nothing but
    [followRedirects].  A request that set the flag, to [false] as well,
    keeps it; a request that left it undefined takes the configured default
    when that default is truthy; with a falsy default the request stays as
    it is. *)
Theorem setFollowRedirects_keeps_explicit_flag (r : Request.t) (w : World) :
  exists r',
    setFollowRedirects r w = Normal (r', w) /\
    r' = Request.with_followRedirects (Request.followRedirects r') r /\
    (Request.followRedirects r <> JUndefined ->
     Request.followRedirects r' = Request.followRedirects r) /\
    (Request.followRedirects r = JUndefined ->
     truthy (Config.followRedirects (config_request w)) = true ->
     Request.followRedirects r' = Config.followRedirects (config_request w)) /\
    (truthy (Config.followRedirects (config_request w)) = false -> r' = r).
Proof.
  no_params. unfold setFollowRedirects, bind, read, ret.
  destruct (truthy (Config.followRedirects (config_request w))) eqn:Hcfg.
  - destruct (Request.followRedirects r) eqn:Hown; simpl;
      (eexists; split; [reflexivity|]);
      cbn [Request.followRedirects Request.with_followRedirects];
      rewrite ?Hown; (split; [now destruct r; simpl in *; subst|]);
      repeat split; intros; try reflexivity; try discriminate; try contradiction.
  - rewrite andb_false_l. exists r. rewrite with_followRedirects_id.
    repeat split; try reflexivity. discriminate.
Qed.

(** ** The timeout *)

Lemma js_or_truthy (a b : JsValue) : truthy b = true -> truthy (js_or a b) = true.
Proof. no_params. unfold js_or. now destruct (truthy a) eqn:Ha. Qed.

(** The timeout of the assembled request is the resolved request's own
    timeout when that is truthy and the configured default otherwise; with a
    truthy default, no assembled request is left without a timeout. *)
Theorem process_timeout_own_or_default
    (r : Request.t) (w : World) (r0 r' : Request.t) (w0 w' : World) :
  resolve r w = Normal (r0, w0) ->
  process r w = Normal (r', w') ->
  (truthy (Request.timeout r0) = true -> Request.timeout r' = Request.timeout r0) /\
  (truthy (Request.timeout r0) = false ->
   Request.timeout r' = Config.timeout (config_request w0)) /\
  (truthy (Config.timeout (config_request w0)) = true ->
   truthy (Request.timeout r') = true).
Proof.
  intros Hres Hrun. rewrite (process_timeout _ _ _ _ _ _ Hres Hrun).
  repeat split.
  - intros H. unfold js_or. now rewrite H.
  - intros H. unfold js_or. now rewrite H.
  - apply js_or_truthy.
Qed.

(** ** Running a step again *)

Lemma prefix_append (p b u : string) :
  String.prefix p b = true -> String.prefix p (b ++ u) = true.
Proof.
  no_params. intros [t ->]%prefix_true_iff. apply prefix_true_iff.
  exists (t ++ u). apply append_assoc.
Qed.

(** With no base URL, or with one that starts with [http], [setBaseUrl]
    run on its own result returns that result: the base URL is not put in
    front a second time. *)
Theorem setBaseUrl_again
    (r : Request.t) (w : World) (r1 : Request.t) (w1 : World) :
  Config.baseUrl (config_request w) = ""
  \/ startsWith (Config.baseUrl (config_request w)) "http" = true ->
  setBaseUrl r w = Normal (r1, w1) ->
  setBaseUrl r1 w1 = Normal (r1, w1).
Proof.
  intros Hbase Hrun. pose proof (setBaseUrl_world _ _ _ _ Hrun) as ->.
  rewrite setBaseUrl_unfold in Hrun.
  destruct (url_parse (prefixed w r)) as [parts|] eqn:Hparse; [|discriminate].
  injection Hrun as <-. rewrite setBaseUrl_unfold.
  cbn [Request.url Request.with_baseUrl Request.with_path Request.with_url].
  assert ((negb (String.eqb (Config.baseUrl (config_request w)) "")
           && negb (startsWith (prefixed w r) "http")) = false) as Hagain.
  { destruct Hbase as [->|Hhttp]; [reflexivity|].
    destruct (String.eqb _ ""); [reflexivity|]. simpl.
    destruct (startsWith (Request.url r) "http") eqn:Hu; simpl.
    - now rewrite Hu.
    - unfold startsWith in *. now rewrite (prefix_append _ _ _ Hhttp). }
  rewrite Hagain, Hparse. reflexivity.
Qed.

(** [setBody] run on its own result returns that result, unless the body is
    a number or a boolean. *)
Theorem setBody_again (r : Request.t) (w : World) (r1 : Request.t) (w1 : World) :
  setBody r w = Normal (r1, w1) ->
  typeof (Request.body r1) <> "number" ->
  typeof (Request.body r1) <> "boolean" ->
  setBody r1 w1 = Normal (r1, w1).
Proof.
  no_params. destruct r as [u pp qp h d b mp fr t pa bu]. unfold setBody, ret.
  case_value d; case_value b; simpl; intros [= <- <-]; simpl;
    intros Hnum Hbool; try reflexivity; contradiction.
Qed.

(** [setMultiPartFormData] run on its own result does nothing: the form is
    gone after the first run. *)
Theorem setMultiPartFormData_again
    (r : Request.t) (w : World) (r1 : Request.t) (w1 : World) :
  setMultiPartFormData r w = Normal (r1, w1) ->
  setMultiPartFormData r1 w1 = Normal (r1, w1).
Proof.
  no_params. intros Hrun. apply setMultiPartFormData_none.
  destruct (Request._multiPartFormData r) as [form|] eqn:Hform.
  - destruct (setMultiPartFormData_spec r w form Hform) as (l & w' & Hrun' & _).
    rewrite Hrun in Hrun'. now injection Hrun' as -> ->.
  - rewrite (setMultiPartFormData_none _ _ Hform) in Hrun. now injection Hrun as <- <-.
Qed.

(** ** Path parameters and the final URL *)

Lemma split_first_without_first_char (c : ascii) (pat s : string) :
  mentions c s = false -> split_first (String c pat) s = None.
Proof.
  no_params. induction s as [|d s IH]; [reflexivity|].
  cbn [mentions]. intros [Hc Hs]%orb_false_iff. rewrite split_first_unfold.
  cbn [String.prefix]. destruct (ascii_dec c d) as [->|_].
  - now rewrite Ascii.eqb_refl in Hc.
  - now rewrite (IH Hs).
Qed.

(** A URL without an opening brace comes out of [setPathParams] as it went
    in, whatever path parameters are declared. *)
Theorem setPathParams_without_brace (r : Request.t) (w : World) :
  mentions "{" (Request.url r) = false ->
  setPathParams r w = Normal (r, w).
Proof.
  no_params. intros Hurl. unfold setPathParams, ret.
  destruct (Request.pathParams r) as [ps|]; [|reflexivity].
  do 2 f_equal. induction (Object_keys ps) as [|name names IH]; [reflexivity|].
  cbn [fold_left].
  assert (replacePathParam ps r name = r) as ->; [|exact IH].
  unfold replacePathParam, String_replace.
  change ("{" ++ name ++ "}") with (String "{" (name ++ "}")).
  rewrite (split_first_without_first_char _ _ _ Hurl). apply with_url_id.
Qed.

Lemma fold_replacePathParam_url (ps : list (string * JsValue)) (names : list string)
    (r r' : Request.t) :
  Request.url r = Request.url r' ->
  Request.url (fold_left (replacePathParam ps) names r) =
  Request.url (fold_left (replacePathParam ps) names r').
Proof.
  no_params. revert r r'. induction names as [|name names IH]; intros r r' Hurl.
  - exact Hurl.
  - cbn [fold_left]. apply IH. unfold replacePathParam.
    cbn [Request.url Request.with_url]. now rewrite Hurl.
Qed.

(** The URL of the assembled request is built in three moves: the base URL
    goes in front where [setBaseUrl] puts it, then the path parameters are
    replaced in that text, then the query string is appended after a
    question mark; a token in the query string is therefore never
    replaced. *)
Theorem process_url_prefix_then_params_then_query
    (r : Request.t) (w : World) (r0 r' : Request.t) (w0 w' : World) :
  resolve r w = Normal (r0, w0) ->
  process r w = Normal (r', w') ->
  let u1 := prefixed w0 r0 in
  let u2 := match Request.pathParams r0 with
            | Some ps =>
                Request.url (fold_left (replacePathParam ps) (Object_keys ps)
                                       (Request.with_url u1 r0))
            | None => u1
            end in
  let query := getPlainQuery (Request.queryParams r0) in
  Request.url r' = if String.eqb query "" then u2 else u2 ++ "?" ++ query.
Proof.
  intros Hres Hrun u1 u2 query.
  rewrite (process_after_resolve _ _ _ _ Hres) in Hrun.
  destruct (setBaseUrl r0 w0) as [[r1 w1]|e] eqn:H1;
    [|rewrite (assemble_throws _ _ _ H1) in Hrun; discriminate].
  pose proof (setBaseUrl_world _ _ _ _ H1) as ->.
  destruct (assemble_run _ _ _ H1)
    as (r2 & r3 & r4 & w4 & r'' & w'' & H2 & H3 & _ & Hrun' & Hurl & _).
  rewrite Hrun in Hrun'. injection Hrun' as <- <-. rewrite Hurl.
  rewrite setBaseUrl_unfold in H1. destruct (url_parse _) as [parts|]; [|discriminate].
  injection H1 as <-.
  assert (Request.queryParams r2 = Request.queryParams r0) as Hq2.
  { match type of H2 with setPathParams ?r1 _ = _ =>
      destruct (setPathParams_shape r1 w0) as [u Hshape] end.
    rewrite H2 in Hshape. now injection Hshape as ->. }
  assert (Request.url r2 = u2) as Hu2.
  { unfold setPathParams, ret in H2.
    cbn [Request.pathParams Request.with_baseUrl Request.with_path Request.with_url] in H2.
    subst u2. destruct (Request.pathParams r0) as [ps|]; injection H2 as <-.
    - now apply fold_replacePathParam_url.
    - reflexivity. }
  unfold setQueryParams, ret in H3. rewrite Hq2 in H3. fold query in H3.
  destruct (String.eqb query ""); simpl in H3; injection H3 as <-.
  - exact Hu2.
  - cbn [Request.url Request.with_url]. now rewrite Hu2.
Qed.

(** ** Header objects across the steps *)

Lemma setHeaders_same_object
    (r : Request.t) (w : World) (r' : Request.t) (w' : World) (l : loc) :
  Request.headers r = Some l ->
  setHeaders r w = Normal (r', w') ->
  Request.headers r' = Some l.
Proof.
  no_params. intros Hl. unfold setHeaders, bind, read, ret, modify.
  destruct (0 <? size _)%nat; rewrite ?Hl; now intros [= <- <-].
Qed.

Lemma setMultiPartFormData_same_object
    (r : Request.t) (w : World) (r' : Request.t) (w' : World) (l : loc) :
  Request.headers r = Some l ->
  setMultiPartFormData r w = Normal (r', w') ->
  Request.headers r' = Some l.
Proof.
  no_params. intros Hl. unfold setMultiPartFormData, bind, read, ret, modify, alloc.
  destruct (Request._multiPartFormData r); [|now intros [= <- <-]].
  cbn [Request.headers Request.with_data]. rewrite Hl. now intros [= <- <-].
Qed.

Lemma setHeaders_leaves_defaults_aux
    (r : Request.t) (w : World) (r' : Request.t) (w' : World) :
  setHeaders r w = Normal (r', w') ->
  config_request w' = config_request w /\
  object_at w' (Config.headers (config_request w)) =
  object_at w (Config.headers (config_request w)).
Proof.
  no_params. intros Hrun. set (lc := Config.headers (config_request w)).
  destruct (setHeaders_spec r w) as (h & w'' & Hrun' & Hcfg & _ & Hframe & _ & Hobj).
  rewrite Hrun in Hrun'. injection Hrun' as -> <-. split; [exact Hcfg|].
  destruct (decide (Request.headers r = Some lc)) as [Halias|Hsep].
  - pose proof (setHeaders_same_object _ _ _ _ _ Halias Hrun) as Hh.
    apply map_eq. intros k. specialize (Hobj k). unfold headers_of in Hobj.
    rewrite Hh, Halias in Hobj. fold lc in Hobj. rewrite Hobj.
    destruct (object_at w lc !! k); [done|]. now destruct (inherited k).
  - destruct (decide (lc ∈ dom (heap w))) as [Hin|Hout].
    + unfold object_at. now rewrite (Hframe _ Hin Hsep).
    + unfold setHeaders, bind, read, ret in Hrun. fold lc in Hrun.
      assert (object_at w lc = ∅) as Hempty
        by (unfold object_at; now apply not_elem_of_dom in Hout as ->).
      rewrite Hempty, map_size_empty in Hrun. simpl in Hrun.
      injection Hrun as _ Hw. now rewrite <- Hw.
Qed.

(** [setHeaders] leaves [config.request] and the properties of its
    default-header object as they are, for every request, the one whose
    header object is that very object included. *)
Theorem setHeaders_leaves_defaults
    (r : Request.t) (w : World) (r' : Request.t) (w' : World) :
  setHeaders r w = Normal (r', w') ->
  config_request w' = config_request w /\
  object_at w' (Config.headers (config_request w)) =
  object_at w (Config.headers (config_request w)).
Proof. no_params. apply setHeaders_leaves_defaults_aux. Qed.

(** [setHeaders] run on its own result leaves the request with the same
    header object and the same headers. *)
Theorem setHeaders_again
    (r : Request.t) (w : World) (r1 r2 : Request.t) (w1 w2 : World) :
  setHeaders r w = Normal (r1, w1) ->
  setHeaders r1 w1 = Normal (r2, w2) ->
  Request.headers r2 = Request.headers r1 /\
  forall k, headers_of w2 r2 !! k = headers_of w1 r1 !! k.
Proof.
  no_params. intros Hrun1 Hrun2.
  destruct (setHeaders_leaves_defaults_aux r w r1 w1 Hrun1) as [Hcfg Hdef].
  destruct (setHeaders_spec r w) as (h & w' & Hrun' & _ & _ & _ & _ & Hobj1).
  rewrite Hrun1 in Hrun'. injection Hrun' as -> <-.
  destruct (setHeaders_spec (Request.with_headers h r) w1)
    as (h' & w' & Hrun' & _ & _ & _ & _ & Hobj2).
  rewrite Hrun2 in Hrun'. injection Hrun' as -> <-.
  rewrite Hcfg, Hdef in Hobj2.
  assert (forall k, headers_of w2 (Request.with_headers h' (Request.with_headers h r)) !! k =
                    headers_of w1 (Request.with_headers h r) !! k) as Hsame.
  { intros k. rewrite Hobj2, Hobj1.
    destruct (headers_of w r !! k); [done|].
    destruct (inherited k); [done|].
    now destruct (object_at w (Config.headers (config_request w)) !! k). }
  split; [|exact Hsame].
  cbn [Request.headers Request.with_headers].
  destruct h as [l|].
  - exact (setHeaders_same_object (Request.with_headers (Some l) r) w1 _ w2 l
             eq_refl Hrun2).
  - unfold setHeaders, bind, read, ret, modify in Hrun1, Hrun2.
    rewrite Hcfg, Hdef in Hrun2.
    destruct (0 <? size (object_at w (Config.headers (config_request w))))%nat.
    + now destruct (Request.headers r).
    + now injection Hrun2 as <- <-.
Qed.

(** The header object of the request through [assemble]. *)
Lemma assemble_headers (r0 : Request.t) (w0 : World) (r1 : Request.t) :
  setBaseUrl r0 w0 = Normal (r1, w0) ->
  exists r' w',
    assemble r0 w0 = Normal (r', w') /\
    (forall l, Request.headers r1 = Some l -> Request.headers r' = Some l) /\
    (forall l, Request.headers r' = Some l ->
               Request.headers r1 = Some l \/ l ∉ dom (heap w0)) /\
    (forall k, headers_of w' r' !! k =
               match match Request._multiPartFormData r1 with
                     | Some form => getHeaders form !! k
                     | None => None
                     end with
               | Some v => Some v
               | None =>
                   match headers_of w0 r1 !! k with
                   | Some v => Some v
                   | None =>
                       if inherited k then None
                       else object_at w0 (Config.headers (config_request w0)) !! k
                   end
               end).
Proof.
  intros H1.
  destruct (setPathParams_shape r1 w0) as [u2 H2].
  destruct (setQueryParams_shape (Request.with_url u2 r1) w0) as [u3 H3].
  set (r3 := Request.with_url u3 (Request.with_url u2 r1)) in *.
  destruct (setHeaders_spec r3 w0)
    as (h & w4 & H4 & _ & Hdom4 & _ & Hloc4 & Hobj4).
  set (r4 := Request.with_headers h r3) in *.
  destruct (setBody_shape r4 w4) as (r5 & H5 & Hr5).
  assert (Request._multiPartFormData r5 = Request._multiPartFormData r1) as Hmp5
    by now rewrite Hr5.
  assert (Request.headers r5 = h) as Hh5 by now rewrite Hr5.
  assert (forall l, Request.headers r1 = Some l -> h = Some l) as Hsame4.
  { intros l Hl. exact (setHeaders_same_object r3 w0 r4 w4 l Hl H4). }
  assert (headers_of w0 r3 = headers_of w0 r1) as Hof by reflexivity.
  rewrite Hof in Hobj4.
  destruct (Request._multiPartFormData r1) as [form|] eqn:Hmp.
  - destruct (setMultiPartFormData_spec r5 w4 form Hmp5)
      as (l & w6 & H6 & _ & _ & _ & Hloc6 & Hobj6).
    set (r6 := Request.with__multiPartFormData None _) in *.
    destruct (setFollowRedirects_shape r6 w6) as [f H7].
    eexists _, w6. split.
    { unfold assemble, bind, read, ret. now rewrite H1, H2, H3, H4, H5, H6, H7. }
    cbn [Request.headers Request.with_timeout Request.with_followRedirects].
    subst r6. cbn [Request.headers Request.with__multiPartFormData Request.with_headers].
    split; [|split].
    + intros l' Hl'. apply Hsame4 in Hl'. rewrite Hl' in Hh5.
      exact (setMultiPartFormData_same_object r5 w4 _ w6 l' Hh5 H6).
    + intros l' [= <-]. destruct Hloc6 as [Hl|Hl].
      * rewrite Hh5 in Hl. exact (Hloc4 _ Hl).
      * right. intros Hin. apply Hl. now apply Hdom4.
    + intros k. unfold headers_of at 1.
      cbn [Request.headers Request.with_timeout Request.with_followRedirects
           Request.with__multiPartFormData Request.with_headers].
      rewrite Hobj6. destruct (getHeaders form !! k); [reflexivity|].
      unfold headers_of at 1. rewrite Hh5. apply Hobj4.
  - destruct (setFollowRedirects_shape r5 w4) as [f H7].
    eexists _, w4. split.
    { unfold assemble, bind, read, ret.
      rewrite H1, H2, H3, H4, H5, (setMultiPartFormData_none r5 w4 Hmp5), H7.
      reflexivity. }
    cbn [Request.headers Request.with_timeout Request.with_followRedirects].
    rewrite Hh5. split; [exact Hsame4|]. split; [exact Hloc4|].
    intros k. unfold headers_of at 1.
    cbn [Request.headers Request.with_timeout Request.with_followRedirects].
    rewrite Hh5. apply Hobj4.
Qed.

(** The headers of the assembled request, name by name: the value the
    multipart form derives for the name, if any; else the value the resolved
    request declared; else the configured default, for a name that is not
    inherited from [Object.prototype].  A request that came with a header
    object leaves with the same object. *)
Theorem process_headers_precedence
    (r : Request.t) (w : World) (r0 r' : Request.t) (w0 w' : World) :
  resolve r w = Normal (r0, w0) ->
  process r w = Normal (r', w') ->
  (forall l, Request.headers r0 = Some l -> Request.headers r' = Some l) /\
  (forall k, headers_of w' r' !! k =
             match match Request._multiPartFormData r0 with
                   | Some form => getHeaders form !! k
                   | None => None
                   end with
             | Some v => Some v
             | None =>
                 match headers_of w0 r0 !! k with
                 | Some v => Some v
                 | None =>
                     if inherited k then None
                     else object_at w0 (Config.headers (config_request w0)) !! k
                 end
             end).
Proof.
  intros Hres Hrun. rewrite (process_after_resolve _ _ _ _ Hres) in Hrun.
  destruct (setBaseUrl r0 w0) as [[r1 w1]|e] eqn:H1;
    [|rewrite (assemble_throws _ _ _ H1) in Hrun; discriminate].
  pose proof (setBaseUrl_world _ _ _ _ H1) as ->.
  destruct (assemble_headers _ _ _ H1) as (r'' & w'' & Hrun' & Hsame & _ & Hobj).
  rewrite Hrun in Hrun'. injection Hrun' as <- <-.
  rewrite setBaseUrl_unfold in H1. destruct (url_parse _); [|discriminate].
  injection H1 as <-. split; [exact Hsame | exact Hobj].
Qed.

(** When the default-header object exists and the resolved request's header
    object is another object, the assembled request's header object is
    another object too: [process] never hands the configuration's object to
    a request. *)
Theorem process_keeps_header_objects_apart
    (r : Request.t) (w : World) (r0 r' : Request.t) (w0 w' : World) :
  resolve r w = Normal (r0, w0) ->
  Config.headers (config_request w0) ∈ dom (heap w0) ->
  Request.headers r0 <> Some (Config.headers (config_request w0)) ->
  process r w = Normal (r', w') ->
  Request.headers r' <> Some (Config.headers (config_request w0)).
Proof.
  intros Hres Hdom Hsep Hrun. rewrite (process_after_resolve _ _ _ _ Hres) in Hrun.
  destruct (setBaseUrl r0 w0) as [[r1 w1]|e] eqn:H1;
    [|rewrite (assemble_throws _ _ _ H1) in Hrun; discriminate].
  pose proof (setBaseUrl_world _ _ _ _ H1) as ->.
  destruct (assemble_headers _ _ _ H1) as (r'' & w'' & Hrun' & _ & Hloc & _).
  rewrite Hrun in Hrun'. injection Hrun' as <- <-.
  rewrite setBaseUrl_unfold in H1. destruct (url_parse _); [|discriminate].
  injection H1 as <-. intros Halias. destruct (Hloc _ Halias) as [Hl|Hl].
  - now apply Hsep.
  - now apply Hl.
Qed.

(** ** Dollar signs in a path-parameter value *)

(** A value whose text starts with two dollar signs and holds no other one
    goes into the URL with a single dollar sign: [replace] reads [$$] in its
    replacement text as one dollar sign. *)
Theorem replacePathParam_double_dollar
    (pathParams : list (string * JsValue)) (request : Request.t)
    (name before after rest : string) :
  let token := "{" ++ name ++ "}" in
  Request.url request = before ++ token ++ after ->
  (forall b a, Request.url request = b ++ token ++ a ->
               (String.length before <= String.length b)%nat) ->
  ToString (get_property pathParams name) = "$$" ++ rest ->
  mentions "$" rest = false ->
  Request.url (replacePathParam pathParams request name) =
  before ++ "$" ++ rest ++ after.
Proof.
  no_params. intros token Hurl Hleft Hvalue Hrest.
  unfold replacePathParam, String_replace. fold token.
  cbn [Request.url Request.with_url]. rewrite Hvalue.
  rewrite Hurl in Hleft |- *. rewrite (split_first_complete _ _ _ Hleft).
  change ("$$" ++ rest) with (String "$" (String "$" rest)).
  cbn [GetSubstitution]. rewrite Ascii.eqb_refl.
  rewrite (GetSubstitution_plain _ _ _ _ Hrest). reflexivity.
Qed.

(** ** The multipart form in the whole of [process] *)

(** C7, as amended.  When the resolved request declares multipart form data,
    the assembled request has the serialized payload as its [data] and no
    [_multiPartFormData] any more, and it has a header object in which every
    header derived from the form holds the form's value under the very name
    the form gives it, whatever was there under that name; under any other
    name, one that differs from a form header's name by case only as well,
    the header object holds what the header merge left: the declared value
    or else the default. *)
Theorem process_multipart_overwrites_by_exact_name
    (r : Request.t) (w : World) (r0 r' : Request.t) (w0 w' : World) (form : FormData) :
  resolve r w = Normal (r0, w0) ->
  Request._multiPartFormData r0 = Some form ->
  process r w = Normal (r', w') ->
  Request.data r' = JBuffer (getBuffer form) /\
  (exists l,
     Request.headers r' = Some l /\
     (forall k v, getHeaders form !! k = Some v -> object_at w' l !! k = Some v) /\
     (forall k, getHeaders form !! k = None ->
                object_at w' l !! k =
                match headers_of w0 r0 !! k with
                | Some v => Some v
                | None =>
                    if inherited k then None
                    else object_at w0 (Config.headers (config_request w0)) !! k
                end)) /\
  Request._multiPartFormData r' = None.
Proof.
  intros Hres Hform Hrun. rewrite (process_after_resolve _ _ _ _ Hres) in Hrun.
  destruct (setBaseUrl r0 w0) as [[r1 w1]|e] eqn:H1;
    [|rewrite (assemble_throws _ _ _ H1) in Hrun; discriminate].
  pose proof (setBaseUrl_world _ _ _ _ H1) as ->.
  destruct (assemble_run _ _ _ H1)
    as (r2 & r3 & r4 & w4 & r'' & w'' & _ & _ & _ & Hrun' & _ & _ & _ & _ & _ & _ & _ & _ & _ & Hmp).
  rewrite Hrun in Hrun'. injection Hrun' as <- <-.
  destruct (assemble_headers _ _ _ H1) as (r'' & w'' & Hrun' & _ & _ & Hobj).
  rewrite Hrun in Hrun'. injection Hrun' as <- <-.
  rewrite setBaseUrl_unfold in H1. destruct (url_parse _); [|discriminate].
  injection H1 as <-.
  cbn [Request._multiPartFormData Request.with_baseUrl Request.with_path
       Request.with_url] in Hmp, Hobj.
  destruct (Hmp form Hform) as (Hdata & Hgone & l & Hl & _).
  rewrite Hform in Hobj. unfold headers_of at 1 in Hobj. rewrite Hl in Hobj.
  split; [exact Hdata|]. split; [|exact Hgone].
  exists l. split; [exact Hl|]. split.
  - intros k v Hk. now rewrite Hobj, Hk.
  - intros k Hk. rewrite Hobj, Hk. reflexivity.
Qed.

End RequestProcessor.

(** * Examples *)

Local Abbreviation sample_process :=
  (process Sample.url_parse Sample.getPlainQuery
           Sample.processMaps Sample.processTemplates Sample.processData).

Local Abbreviation sample_resolve :=
  (resolve Sample.processMaps Sample.processTemplates Sample.processData).

(** C1.  A request whose timeout was set to 0 leaves [process] with the
    default timeout of the configuration, 3000: [0 || 3000] is [3000]. *)
Theorem process_timeout_zero_gets_default :
  exists r' w',
    sample_process Sample.timeout_zero (Sample.world "" ∅) = Normal (r', w') /\
    Request.timeout Sample.timeout_zero = JNum 0 /\
    Request.timeout r' = JNum 3000.
Proof. eexists _, _. split; [vm_compute; reflexivity|]. split; reflexivity. Qed.

(** C2 fails where a token occurs twice: the second [{id}] is still in the
    URL after [setPathParams], which declares [id]. *)
Lemma setPathParams_leaves_second_token :
  Request.pathParams Sample.two_tokens = Some [("id", JNum 7)] /\
  exists r',
    setPathParams Sample.two_tokens (Sample.world "" ∅) = Normal (r', Sample.world "" ∅) /\
    Request.url r' = "/users/7/friends/{id}" /\
    occurs "{id}" (Request.url r') = true.
Proof.
  split; [reflexivity|]. eexists. split; [reflexivity|]. split; reflexivity.
Qed.

(** The theorem of C2 at [Sample.two_tokens]. *)
Lemma setPathParams_replaces_first_occurrence_witness :
  Request.pathParams Sample.two_tokens = Some [("id", JNum 7)] /\
  setPathParams Sample.two_tokens (Sample.world "" ∅) =
    Normal (Request.with_url "/users/7/friends/{id}" Sample.two_tokens, Sample.world "" ∅).
Proof.
  split; [reflexivity|].
  exact (proj1 (setPathParams_replaces_first_occurrence
                  Sample.two_tokens (Sample.world "" ∅) [("id", JNum 7)] eq_refl)).
Defined.

(** C3 fails on a number: [data] holds the text, [body] the number. *)
Lemma setBody_number_out_of_sync :
  exists r',
    setBody Sample.number_body (Sample.world "" ∅) = Normal (r', Sample.world "" ∅) /\
    Request.body r' = JNum 5 /\
    Request.data r' = JStr "5" /\
    Request.data r' <> Request.body r'.
Proof.
  eexists. split; [reflexivity|]. split; [reflexivity|]. split; [reflexivity|].
  discriminate.
Qed.

(** The theorem of C3 at [Sample.number_body]. *)
Lemma setBody_data_first_then_scalar_text_witness :
  exists r',
    setBody Sample.number_body (Sample.world "" ∅) = Normal (r', Sample.world "" ∅) /\
    Request.body r' = JNum 5 /\
    Request.data r' = JStr "5".
Proof.
  destruct (setBody_data_first_then_scalar_text Sample.number_body (Sample.world "" ∅))
    as (r' & Hrun & _ & Hbody & Hscalar & _).
  exists r'. split; [exact Hrun|].
  pose proof (Hbody eq_refl) as Hb. split; [exact Hb|].
  rewrite Hscalar; rewrite Hb; [reflexivity | left; reflexivity].
Defined.

(** C4 fails on a URL in which [url.parse] finds neither protocol nor host:
    [process] returns, and [baseUrl] is put together from the two [null]. *)
Lemma process_accepts_url_without_host :
  Sample.url_parse "/api/users" = Normal (mkUrl JNull JNull (JStr "/api/users")) /\
  exists r' w',
    sample_process (Sample.get "/api/users") (Sample.world "" ∅) = Normal (r', w') /\
    Request.baseUrl r' = JStr "null//null".
Proof.
  split; [reflexivity|]. eexists _, _. split; [vm_compute; reflexivity|]. reflexivity.
Qed.

(** The theorem of C4 at a URL with protocol and host. *)
Lemma setBaseUrl_throws_what_url_parse_throws_witness :
  exists r1,
    setBaseUrl Sample.url_parse (Sample.get "http://localhost:9393/api/users")
               (Sample.world "" ∅) = Normal (r1, Sample.world "" ∅) /\
    Request.path r1 = JStr "/api/users" /\
    Request.baseUrl r1 = JStr "http://localhost:9393".
Proof.
  destruct (proj2 (proj2 (setBaseUrl_throws_what_url_parse_throws
                            Sample.url_parse Sample.getPlainQuery
                            Sample.processMaps Sample.processTemplates Sample.processData
                            (Sample.get "http://localhost:9393/api/users")
                            (Sample.world "" ∅)))
                  (mkUrl (JStr "http:") (JStr "localhost:9393") (JStr "/api/users"))
                  eq_refl)
    as (r1 & Hrun & _ & Hpath & Hbase).
  exists r1. split; [exact Hrun|]. split; [exact Hpath | exact Hbase].
Defined.

(** The theorem of C5 on a request that declares [accept], with defaults for
    [accept] and [x-api-key]: the declared value stays, the missing default
    comes in. *)
Lemma setHeaders_adds_only_missing_defaults_witness :
  let w := Sample.world_with "" Sample.default_headers Sample.accept_json in
  let w' := Sample.world_with "" Sample.default_headers
              {[ "accept" := JStr "application/json"; "x-api-key" := JStr "secret" ]} in
  setHeaders Sample.with_accept w = Normal (Sample.with_accept, w') /\
  headers_of w' Sample.with_accept !! "accept" = Some (JStr "application/json") /\
  headers_of w' Sample.with_accept !! "x-api-key" = Some (JStr "secret").
Proof.
  intros w w'.
  assert (setHeaders Sample.with_accept w = Normal (Sample.with_accept, w')) as Hrun
    by (vm_compute; reflexivity).
  split; [exact Hrun|].
  destruct (setHeaders_adds_only_missing_defaults _ _ _ _ Hrun) as (Hkeep & _ & Hadd).
  split; [apply Hkeep | apply Hadd]; reflexivity.
Defined.

(** C6 fails on a relative URL that starts with [http]: a base URL is
    configured, the URL is not absolute, and [setBaseUrl] leaves it as it
    is. *)
Lemma setBaseUrl_skips_relative_url_starting_with_http :
  let w := Sample.world "http://localhost:3000" ∅ in
  Config.baseUrl (config_request w) = "http://localhost:3000" /\
  is_absolute_url "httpbin/get" = false /\
  exists r',
    setBaseUrl Sample.url_parse (Sample.get "httpbin/get") w = Normal (r', w) /\
    Request.url r' = "httpbin/get".
Proof.
  intros w. split; [reflexivity|]. split; [reflexivity|].
  eexists. split; [vm_compute; reflexivity | reflexivity].
Qed.

(** The theorem of C6 on a path, with a base URL configured. *)
Lemma setBaseUrl_prefixes_unless_http_witness :
  let w := Sample.world "http://localhost:9393" ∅ in
  let r' := Request.mk "http://localhost:9393/api/users" None JUndefined None
                       JUndefined JUndefined None JUndefined JUndefined
                       (JStr "/api/users") (JStr "http://localhost:9393") in
  setBaseUrl Sample.url_parse (Sample.get "/api/users") w = Normal (r', w) /\
  Request.url r' = "http://localhost:9393" ++ "/api/users".
Proof.
  intros w r'.
  assert (setBaseUrl Sample.url_parse (Sample.get "/api/users") w = Normal (r', w)) as Hrun
    by (vm_compute; reflexivity).
  split; [exact Hrun|].
  apply (setBaseUrl_prefixes_unless_http _ _ _ _ _ Hrun); [discriminate | reflexivity].
Defined.

(** C7 fails on a content type declared with capitals: the form's
    [content-type] comes in beside it, and [Content-Type] keeps the declared
    value. *)
Lemma process_keeps_capital_content_type :
  let w := Sample.world_with "" ∅ Sample.capital_content_type in
  headers_of w Sample.upload !! "Content-Type" = Some (JStr "application/json") /\
  getHeaders Sample.upload_form !! "content-type" =
    Some (JStr "multipart/form-data; boundary=b") /\
  exists r' w',
    sample_process Sample.upload w = Normal (r', w') /\
    headers_of w' r' !! "Content-Type" = Some (JStr "application/json") /\
    headers_of w' r' !! "content-type" = Some (JStr "multipart/form-data; boundary=b").
Proof.
  intros w. split; [reflexivity|]. split; [reflexivity|].
  eexists _, _. split; [vm_compute; reflexivity|]. split; reflexivity.
Qed.

(** The theorem of C7 on an upload that declared a JSON content type: the
    form's content type takes its place, and a name nobody declared stays
    absent. *)
Lemma process_multipart_overwrites_by_exact_name_witness :
  let w := Sample.world_with "" ∅ Sample.content_type_json in
  sample_resolve Sample.upload w = Normal (Sample.upload, w) /\
  Request._multiPartFormData Sample.upload = Some Sample.upload_form /\
  exists r' w',
    sample_process Sample.upload w = Normal (r', w') /\
    Request.data r' = JBuffer "--b  file  --b--" /\
    (exists l, Request.headers r' = Some l /\
               object_at w' l !! "content-type" =
                 Some (JStr "multipart/form-data; boundary=b") /\
               object_at w' l !! "accept" = None) /\
    Request._multiPartFormData r' = None.
Proof.
  intros w. split; [reflexivity|]. split; [reflexivity|].
  destruct (sample_process Sample.upload w) as [[r' w']|e] eqn:Hrun;
    [|vm_compute in Hrun; discriminate].
  destruct (process_multipart_overwrites_by_exact_name
              Sample.url_parse Sample.getPlainQuery
              Sample.processMaps Sample.processTemplates Sample.processData
              Sample.upload w Sample.upload r' w w' Sample.upload_form
              eq_refl eq_refl Hrun)
    as (Hdata & (l & Hl & Hform & Hother) & Hgone).
  exists r', w'. split; [reflexivity|]. split; [exact Hdata|]. split; [|exact Hgone].
  exists l. split; [exact Hl|]. split.
  - apply Hform. reflexivity.
  - rewrite Hother; reflexivity.
Defined.

(** The theorem of C8 on the same upload, with default headers
    configured. *)
Lemma process_leaves_configuration_unchanged_witness :
  let w := Sample.world_with "" Sample.default_headers Sample.content_type_json in
  sample_resolve Sample.upload w = Normal (Sample.upload, w) /\
  Sample.defaults_loc ∈ dom (heap w) /\
  Request.headers Sample.upload <> Some Sample.defaults_loc /\
  exists r' w',
    sample_process Sample.upload w = Normal (r', w') /\
    config_request w' = config_request w /\
    heap w' !! Sample.defaults_loc = Some Sample.default_headers.
Proof.
  intros w.
  assert (Sample.defaults_loc ∈ dom (heap w)) as Hdom by (vm_compute; reflexivity).
  assert (Request.headers Sample.upload <> Some Sample.defaults_loc) as Hsep
    by discriminate.
  split; [reflexivity|]. split; [exact Hdom|]. split; [exact Hsep|].
  destruct (sample_process Sample.upload w) as [[r' w']|e] eqn:Hrun;
    [|vm_compute in Hrun; discriminate].
  destruct (process_leaves_configuration_unchanged
              Sample.url_parse Sample.getPlainQuery
              Sample.processMaps Sample.processTemplates Sample.processData
              Sample.upload w Sample.upload r' w w'
              eq_refl eq_refl eq_refl Hdom Hsep Hrun)
    as (Hcfg & Hobj & _).
  exists r', w'. split; [reflexivity|]. split; [exact Hcfg|].
  etrans; [exact Hobj|]. vm_compute. reflexivity.
Defined.

(** The theorem of C9 on a request with a path parameter and a query
    parameter: the URL ends up substituted and with its query string, the
    [path] is the path of the URL as it was before. *)
Lemma process_path_parsed_before_substitution_witness :
  let w := Sample.world "" ∅ in
  sample_resolve Sample.user_page w = Normal (Sample.user_page, w) /\
  exists r' w',
    sample_process Sample.user_page w = Normal (r', w') /\
    Request.url r' = "/api/users/7?page=2" /\
    Request.path r' = JStr "/api/users/{id}" /\
    Request.baseUrl r' = JStr "null//null".
Proof.
  intros w. split; [reflexivity|].
  destruct (sample_process Sample.user_page w) as [[r' w']|e] eqn:Hrun;
    [|vm_compute in Hrun; discriminate].
  destruct (process_path_parsed_before_substitution
              Sample.url_parse Sample.getPlainQuery
              Sample.processMaps Sample.processTemplates Sample.processData
              Sample.user_page w Sample.user_page r' w w' eq_refl Hrun)
    as (r1 & r2 & r3 & parts & H1 & Hparse & Hpath & Hbase & H2 & H3 & Hurl).
  vm_compute in H1. injection H1 as <-.
  vm_compute in Hparse. injection Hparse as <-.
  vm_compute in H2. injection H2 as <-.
  vm_compute in H3. injection H3 as <-.
  exists r', w'. split; [reflexivity|].
  split; [exact Hurl|]. split; [exact Hpath | exact Hbase].
Defined.

(** The theorem of C10 on a URL that already holds a question mark. *)
Lemma setQueryParams_appends_after_question_mark_witness :
  Sample.getPlainQuery (JObj []) = "" /\
  exists r',
    setQueryParams Sample.getPlainQuery Sample.search_page (Sample.world "" ∅) =
      Normal (r', Sample.world "" ∅) /\
    Request.url r' = "/search?q=1?page=2".
Proof.
  split; [reflexivity|].
  destruct (setQueryParams_appends_after_question_mark
              Sample.getPlainQuery Sample.search_page (Sample.world "" ∅))
    as (r' & Hrun & _ & Happend & _).
  exists r'. split; [exact Hrun|]. apply Happend. discriminate.
Defined.

(** ** Examples of the further properties *)

(** A request that turned redirects off keeps [false] under a default of
    [true]. *)
Lemma setFollowRedirects_keeps_explicit_flag_witness :
  exists r',
    setFollowRedirects Sample.no_redirects Sample.world_redirects =
      Normal (r', Sample.world_redirects) /\
    Request.followRedirects r' = JBool false.
Proof.
  destruct (setFollowRedirects_keeps_explicit_flag Sample.no_redirects Sample.world_redirects)
    as (r' & Hrun & _ & Hkeep & _).
  exists r'. split; [exact Hrun|]. apply Hkeep. discriminate.
Defined.

(** A timeout of 5000 ms stays under a default of 3000 ms. *)
Lemma process_timeout_own_or_default_witness :
  let w := Sample.world "" ∅ in
  sample_resolve Sample.slow w = Normal (Sample.slow, w) /\
  exists r' w',
    sample_process Sample.slow w = Normal (r', w') /\
    Request.timeout r' = JNum 5000.
Proof.
  intros w. split; [reflexivity|].
  destruct (sample_process Sample.slow w) as [[r' w']|e] eqn:Hrun;
    [|vm_compute in Hrun; discriminate].
  destruct (process_timeout_own_or_default
              Sample.url_parse Sample.getPlainQuery
              Sample.processMaps Sample.processTemplates Sample.processData
              Sample.slow w Sample.slow r' w w' eq_refl Hrun)
    as (Hown & _).
  exists r', w'. split; [reflexivity|]. apply Hown. reflexivity.
Defined.

(** The URL of [Sample.user_page]: path parameter first, query string
    last. *)
Lemma process_url_prefix_then_params_then_query_witness :
  let w := Sample.world "" ∅ in
  sample_resolve Sample.user_page w = Normal (Sample.user_page, w) /\
  exists r' w',
    sample_process Sample.user_page w = Normal (r', w') /\
    Request.url r' = "/api/users/7?page=2".
Proof.
  intros w. split; [reflexivity|].
  destruct (sample_process Sample.user_page w) as [[r' w']|e] eqn:Hrun;
    [|vm_compute in Hrun; discriminate].
  exists r', w'. split; [reflexivity|].
  exact (process_url_prefix_then_params_then_query
           Sample.url_parse Sample.getPlainQuery
           Sample.processMaps Sample.processTemplates Sample.processData
           Sample.user_page w Sample.user_page r' w w' eq_refl Hrun).
Defined.

(** The headers of [Sample.upload] under defaults for [accept] and
    [x-api-key]: the form's content type, the two defaults, the same header
    object. *)
Lemma process_headers_precedence_witness :
  let w := Sample.world_with "" Sample.default_headers Sample.content_type_json in
  sample_resolve Sample.upload w = Normal (Sample.upload, w) /\
  exists r' w',
    sample_process Sample.upload w = Normal (r', w') /\
    Request.headers r' = Some Sample.own_loc /\
    headers_of w' r' !! "content-type" = Some (JStr "multipart/form-data; boundary=b") /\
    headers_of w' r' !! "accept" = Some (JStr "*/*").
Proof.
  intros w. split; [reflexivity|].
  destruct (sample_process Sample.upload w) as [[r' w']|e] eqn:Hrun;
    [|vm_compute in Hrun; discriminate].
  destruct (process_headers_precedence
              Sample.url_parse Sample.getPlainQuery
              Sample.processMaps Sample.processTemplates Sample.processData
              Sample.upload w Sample.upload r' w w' eq_refl Hrun)
    as (Hsame & Hobj).
  exists r', w'. split; [reflexivity|]. split; [now apply Hsame|].
  split; rewrite Hobj; reflexivity.
Defined.

(** [Sample.upload] leaves [process] with its own header object. *)
Lemma process_keeps_header_objects_apart_witness :
  let w := Sample.world_with "" Sample.default_headers Sample.content_type_json in
  sample_resolve Sample.upload w = Normal (Sample.upload, w) /\
  Sample.defaults_loc ∈ dom (heap w) /\
  Request.headers Sample.upload <> Some Sample.defaults_loc /\
  exists r' w',
    sample_process Sample.upload w = Normal (r', w') /\
    Request.headers r' <> Some Sample.defaults_loc.
Proof.
  intros w.
  assert (Sample.defaults_loc ∈ dom (heap w)) as Hdom by (vm_compute; reflexivity).
  assert (Request.headers Sample.upload <> Some Sample.defaults_loc) as Hsep
    by discriminate.
  split; [reflexivity|]. split; [exact Hdom|]. split; [exact Hsep|].
  destruct (sample_process Sample.upload w) as [[r' w']|e] eqn:Hrun;
    [|vm_compute in Hrun; discriminate].
  exists r', w'. split; [reflexivity|].
  exact (process_keeps_header_objects_apart
           Sample.url_parse Sample.getPlainQuery
           Sample.processMaps Sample.processTemplates Sample.processData
           Sample.upload w Sample.upload r' w w' eq_refl Hdom Hsep Hrun).
Defined.

(** The default headers survive [setHeaders] on a request that shares their
    object. *)
Lemma setHeaders_leaves_defaults_witness :
  let w := Sample.world "" Sample.default_headers in
  exists r' w',
    setHeaders Sample.aliased w = Normal (r', w') /\
    object_at w' Sample.defaults_loc = Sample.default_headers.
Proof.
  intros w.
  destruct (setHeaders Sample.aliased w) as [[r' w']|e] eqn:Hrun;
    [|vm_compute in Hrun; discriminate].
  destruct (setHeaders_leaves_defaults Sample.aliased w r' w' Hrun) as [_ Hdef].
  exists r', w'. split; [reflexivity|]. etrans; [exact Hdef|]. vm_compute. reflexivity.
Defined.

(** [setHeaders] twice on a request that declares [accept]. *)
Lemma setHeaders_again_witness :
  let w := Sample.world_with "" Sample.default_headers Sample.accept_json in
  exists r1 w1 r2 w2,
    setHeaders Sample.with_accept w = Normal (r1, w1) /\
    setHeaders r1 w1 = Normal (r2, w2) /\
    Request.headers r2 = Request.headers r1 /\
    headers_of w2 r2 !! "x-api-key" = headers_of w1 r1 !! "x-api-key".
Proof.
  intros w.
  destruct (setHeaders Sample.with_accept w) as [[r1 w1]|e] eqn:Hrun1;
    [|vm_compute in Hrun1; discriminate].
  destruct (setHeaders_spec r1 w1) as (h & w2 & Hrun2 & _).
  destruct (setHeaders_again Sample.with_accept w r1 _ w1 w2 Hrun1 Hrun2) as [Hsame Hobj].
  eexists r1, w1, _, w2. split; [reflexivity|]. split; [exact Hrun2|].
  split; [exact Hsame | apply Hobj].
Defined.

(** [setBody] twice on a text body. *)
Lemma setBody_again_witness :
  let w := Sample.world "" ∅ in
  let r1 := Request.with_data (JStr "hello") Sample.text_body in
  setBody Sample.text_body w = Normal (r1, w) /\
  setBody r1 w = Normal (r1, w).
Proof.
  intros w r1.
  assert (setBody Sample.text_body w = Normal (r1, w)) as Hrun by reflexivity.
  split; [exact Hrun|].
  apply (setBody_again _ _ _ _ Hrun); discriminate.
Defined.

(** [setMultiPartFormData] twice on [Sample.upload]. *)
Lemma setMultiPartFormData_again_witness :
  let w := Sample.world_with "" ∅ Sample.content_type_json in
  exists r1 w1,
    setMultiPartFormData Sample.upload w = Normal (r1, w1) /\
    setMultiPartFormData r1 w1 = Normal (r1, w1).
Proof.
  intros w.
  destruct (setMultiPartFormData Sample.upload w) as [[r1 w1]|e] eqn:Hrun;
    [|vm_compute in Hrun; discriminate].
  exists r1, w1. split; [reflexivity|].
  exact (setMultiPartFormData_again Sample.upload w r1 w1 Hrun).
Defined.

(** [setBaseUrl] twice on a path, under a base URL that starts with
    [http]. *)
Lemma setBaseUrl_again_witness :
  let w := Sample.world "http://localhost:9393" ∅ in
  startsWith (Config.baseUrl (config_request w)) "http" = true /\
  exists r1,
    setBaseUrl Sample.url_parse (Sample.get "/api/users") w = Normal (r1, w) /\
    setBaseUrl Sample.url_parse r1 w = Normal (r1, w) /\
    Request.url r1 = "http://localhost:9393/api/users".
Proof.
  intros w. split; [reflexivity|].
  destruct (setBaseUrl Sample.url_parse (Sample.get "/api/users") w)
    as [[r1 w1]|e] eqn:Hrun; [|vm_compute in Hrun; discriminate].
  pose proof (setBaseUrl_again Sample.url_parse (Sample.get "/api/users") w r1 w1
                (or_intror eq_refl) Hrun) as Hagain.
  vm_compute in Hrun. injection Hrun as <- <-.
  eexists. split; [reflexivity|]. split; [exact Hagain | reflexivity].
Defined.

(** A declared path parameter and a URL without a brace. *)
Lemma setPathParams_without_brace_witness :
  mentions "{" (Request.url Sample.unused_param) = false /\
  setPathParams Sample.unused_param (Sample.world "" ∅) =
    Normal (Sample.unused_param, Sample.world "" ∅).
Proof.
  split; [reflexivity|]. now apply setPathParams_without_brace.
Defined.

(** The value [$$5] goes into the URL as [$5]. *)
Lemma replacePathParam_double_dollar_witness :
  Request.url Sample.dollar_amount = "/pay/" ++ "{amt}" ++ "" /\
  ToString (get_property [("amt", JStr "$$5")] "amt") = "$$" ++ "5" /\
  mentions "$" "5" = false /\
  Request.url (replacePathParam [("amt", JStr "$$5")] Sample.dollar_amount "amt") =
    "/pay/$5".
Proof.
  split; [reflexivity|]. split; [reflexivity|]. split; [reflexivity|].
  apply (replacePathParam_double_dollar
           [("amt", JStr "$$5")] Sample.dollar_amount "amt" "/pay/" "" "5");
    try reflexivity.
  intros b a Hba.
  exact (split_first_leftmost "{amt}" "/pay/{amt}" "/pay/" "" eq_refl b a Hba).
Defined.
